(** * Football predictions service: cache-or-fetch pipeline

    A shallow embedding of the two services of the repository,

    - [FootballApiService] (football-api.service.ts): odds to percentage,
      normalisation of the upstream matches, the built-in sample set and the
      fall-back on any upstream failure;
    - [PredictionsService] (predictions.service.ts): the two-hour cache
      check, the delete-then-insert refresh and the two query operations;

    together with the part of the JavaScript run time they rely on
    ([parseFloat], [Math.round], [||], string helpers).

    Modelling conventions.
    - A JavaScript [number] is an exact rational extended with [NaN] and the
      two infinities.  The rounding of IEEE doubles, overflow, underflow and
      the sign of zero are not modelled.
    - A JavaScript string is a [string] of bytes; case folding and white
      space are those of ASCII.
    - Exceptions are explicit ([Exc]); code that talks to the document store
      runs in a state-and-exception monad over the collection.
    - Logging has no effect on any result and is left out. *)

From Stdlib Require Import ZArith QArith Qround Qabs Bool List String Ascii Lia Lqa.
Import ListNotations.

Local Open Scope string_scope.
Local Open Scope Z_scope.

(* ================================================================== *)
(** ** The JavaScript run time used by the services *)

Module JS.

(** [number]: exact rationals with the three special values. *)
Inductive number : Type :=
| NaN
| PosInf
| NegInf
| Num (q : Q).

Definition isNaN (x : number) : bool :=
  match x with NaN => true | _ => false end.

Definition Qltb (a b : Q) : bool := negb (Qle_bool b a).

(** [x < y]; every comparison with [NaN] is false. *)
Definition lt (x y : number) : bool :=
  match x, y with
  | NaN, _ | _, NaN => false
  | PosInf, _ => false
  | _, NegInf => false
  | NegInf, _ => true
  | _, PosInf => true
  | Num a, Num b => Qltb a b
  end.

(** [x <= y]. *)
Definition le (x y : number) : bool :=
  match x, y with
  | NaN, _ | _, NaN => false
  | NegInf, _ => true
  | _, PosInf => true
  | PosInf, _ => false
  | _, NegInf => false
  | Num a, Num b => Qle_bool a b
  end.

Definition gt (x y : number) : bool := lt y x.
Definition ge (x y : number) : bool := le y x.

(** [x * y]. *)
Definition mul (x y : number) : number :=
  match x, y with
  | NaN, _ | _, NaN => NaN
  | Num a, Num b => Num (a * b)
  | Num a, PosInf | PosInf, Num a =>
      match (a ?= 0)%Q with Eq => NaN | Gt => PosInf | Lt => NegInf end
  | Num a, NegInf | NegInf, Num a =>
      match (a ?= 0)%Q with Eq => NaN | Gt => NegInf | Lt => PosInf end
  | PosInf, PosInf | NegInf, NegInf => PosInf
  | PosInf, NegInf | NegInf, PosInf => NegInf
  end.

(** [x / y]; a zero divisor counts as [+0]. *)
Definition div (x y : number) : number :=
  match x, y with
  | NaN, _ | _, NaN => NaN
  | Num a, Num b =>
      match (b ?= 0)%Q with
      | Eq => match (a ?= 0)%Q with Eq => NaN | Gt => PosInf | Lt => NegInf end
      | _ => Num (a / b)
      end
  | Num _, PosInf | Num _, NegInf => Num 0
  | PosInf, Num b => if Qle_bool 0 b then PosInf else NegInf
  | NegInf, Num b => if Qle_bool 0 b then NegInf else PosInf
  | _, _ => NaN
  end.

(** [Math.round]: nearest integer, a tie goes up. *)
Definition round (x : number) : number :=
  match x with
  | Num q => Num (inject_Z (Qfloor (q + (1 # 2))))
  | _ => x
  end.

(** Truthiness of a number: [NaN] and zero are falsy. *)
Definition truthy (x : number) : bool :=
  match x with
  | NaN => false
  | Num q => negb (Qeq_bool q 0)
  | _ => true
  end.

(** Truthiness of [number | null]. *)
Definition truthy_opt (x : option number) : bool :=
  match x with Some n => truthy n | None => false end.

(** [a || b] at type [number | null]. *)
Definition or_null (a b : option number) : option number :=
  if truthy_opt a then a else b.

(** [a || b] where [b] is a number. *)
Definition or_num (a : option number) (b : number) : number :=
  match a with
  | Some n => if truthy n then n else b
  | None => b
  end.

(** [x || d] for two numbers. *)
Definition or_default (x d : number) : number :=
  if truthy x then x else d.

(** [x || undefined] for a number [x]. *)
Definition or_undefined (x : number) : option number :=
  if truthy x then Some x else None.

(** Truthiness of a string: only the empty string is falsy. *)
Definition truthy_str (s : string) : bool :=
  match s with EmptyString => false | _ => true end.

(** [s || d] for strings. *)
Definition or_str (s d : string) : string :=
  if truthy_str s then s else d.

(** *** Characters *)

Definition is_digit (c : ascii) : bool :=
  let n := nat_of_ascii c in ((48 <=? n) && (n <=? 57))%nat.

Definition digit_val (c : ascii) : Z := Z.of_nat (nat_of_ascii c) - 48.

(** TAB, LF, VT, FF, CR and SP. *)
Definition is_white (c : ascii) : bool :=
  let n := nat_of_ascii c in
  (((9 <=? n) && (n <=? 13)) || (n =? 32))%nat.

Definition lower_char (c : ascii) : ascii :=
  let n := nat_of_ascii c in
  if ((65 <=? n) && (n <=? 90))%nat then ascii_of_nat (n + 32) else c.

(** *** Strings *)

Fixpoint toLowerCase (s : string) : string :=
  match s with
  | EmptyString => EmptyString
  | String c s' => String (lower_char c) (toLowerCase s')
  end.

(** [s.includes(sub)]. *)
Fixpoint includes (s sub : string) : bool :=
  if String.prefix sub s then true
  else match s with
       | EmptyString => false
       | String _ s' => includes s' sub
       end.

(** [s.split(sep)] for a one-character separator. *)
Fixpoint split (sep : ascii) (s : string) : list string :=
  match s with
  | EmptyString => [EmptyString]
  | String c s' =>
      if Ascii.eqb c sep then EmptyString :: split sep s'
      else match split sep s' with
           | [] => [String c EmptyString]
           | h :: t => String c h :: t
           end
  end.

(** [s.substring(0, n)]. *)
Definition substring0 (n : nat) (s : string) : string := String.substring 0 n s.

(** *** parseFloat *)

Fixpoint trim_start (s : string) : string :=
  match s with
  | String c s' => if is_white c then trim_start s' else s
  | EmptyString => EmptyString
  end.

(** The longest prefix of decimal digits, and what follows it. *)
Fixpoint span_digits (s : string) : list ascii * string :=
  match s with
  | String c s' =>
      if is_digit c then let (ds, r) := span_digits s' in (c :: ds, r)
      else ([], s)
  | EmptyString => ([], EmptyString)
  end.

Definition digits_value (ds : list ascii) : Z :=
  fold_left (fun acc c => 10 * acc + digit_val c) ds 0.

(** [10^e] as a rational, for any integer [e]. *)
Definition pow10 (e : Z) : Q :=
  if e <? 0 then 1 # Z.to_pos (10 ^ (- e)) else inject_Z (10 ^ e).

(** The exponent part [e|E, sign?, digits+], when the text has one. *)
Definition exponent_part (s : string) : Z :=
  match s with
  | String c r =>
      if Ascii.eqb c "e" || Ascii.eqb c "E" then
        let (neg, r') :=
          match r with
          | String "-" r' => (true, r')
          | String "+" r' => (false, r')
          | _ => (false, r)
          end in
        let (ds, _) := span_digits r' in
        match ds with
        | [] => 0
        | _ => if neg then - digits_value ds else digits_value ds
        end
      else 0
  | EmptyString => 0
  end.

(** The unsigned literal: [Infinity], or digits with an optional fraction
    and exponent; [None] when no prefix is a literal. *)
Definition unsigned_literal (s : string) : option number :=
  if String.prefix "Infinity" s then Some PosInf
  else
    let (ip, r1) := span_digits s in
    let (fp, r2) :=
      match r1 with
      | String "." r => span_digits r
      | _ => ([], r1)
      end in
    match ip, fp with
    | [], [] => None
    | _, _ =>
        let m := digits_value (ip ++ fp)%list in
        let e := exponent_part r2 - Z.of_nat (List.length fp) in
        Some (Num (Qred (inject_Z m * pow10 e)))
    end.

Definition negate (x : number) : number :=
  match x with
  | NaN => NaN
  | PosInf => NegInf
  | NegInf => PosInf
  | Num q => Num (- q)
  end.

(** [parseFloat]: skip leading white space, read an optional sign, then
    the longest prefix that is a decimal literal; [NaN] when there is
    none.  Whatever follows the literal is ignored. *)
Definition parseFloat (s : string) : number :=
  let t := trim_start s in
  let (neg, body) :=
    match t with
    | String "-" r => (true, r)
    | String "+" r => (false, r)
    | _ => (false, t)
    end in
  match unsigned_literal body with
  | None => NaN
  | Some v => if neg then negate v else v
  end.

End JS.

(* ================================================================== *)
(** ** Exceptions *)

Inductive error : Type :=
| HttpFailure
| StoreUnavailable
| ValidationError.

Inductive Exc (A : Type) : Type :=
| Ok (a : A)
| Throw (e : error).

Arguments Ok {A} a.
Arguments Throw {A} e.

Definition exc_bind {A B} (m : Exc A) (k : A -> Exc B) : Exc B :=
  match m with
  | Ok a => k a
  | Throw e => Throw e
  end.

(** [try { body } catch (e) { handler e }]. *)
Definition exc_catch {A} (body : Exc A) (handler : error -> Exc A) : Exc A :=
  match body with
  | Ok a => Ok a
  | Throw e => handler e
  end.

(* ================================================================== *)
(** ** football-api.service.ts *)

(** The fields of an upstream match that the service reads. *)
Module Details.
Record t : Type := {
  date : string;
  homeTeam : string;
  awayTeam : string;
  country : string;
  competition : string;
  competition_full : string
}.
End Details.

Module Odds.
Record t : Type := {
  home_win_odds : string;
  away_win_odds : string;
  draw_odds : string
}.
End Odds.

Module BetminerMatch.
(** [predictions_conf] has an index signature: a key may be absent. *)
Record t : Type := {
  details : Details.t;
  predictions_conf : list (string * string);
  odds : Odds.t
}.

Fixpoint lookup (key : string) (o : list (string * string)) : option string :=
  match o with
  | [] => None
  | (k, v) :: o' => if String.eqb k key then Some v else lookup key o'
  end.

Definition conf (m : t) (key : string) : option string :=
  lookup key (predictions_conf m).
End BetminerMatch.

Module TransformedPrediction.
Record t : Type := {
  homeTeam : string;
  awayTeam : string;
  homeWinChance : JS.number;
  awayWinChance : JS.number;
  drawChance : JS.number;
  matchTime : string;
  competition : string;
  date : string;
  country : option string;
  homeWinOdds : option JS.number;
  awayWinOdds : option JS.number;
  drawOdds : option JS.number
}.
End TransformedPrediction.

(** The body of an upstream response, as the service tells bodies apart. *)
Inductive ResponseData : Type :=
| NoData                                   (* missing or falsy *)
| NotArray                                 (* truthy, but no array *)
| ArrayOf (ms : list BetminerMatch.t).

Module FootballApiService.
Import JS.
Module TP := TransformedPrediction.

(** The injected configuration and HTTP client: the key read from
    RAPIDAPI_KEY, and for every URL what the GET resolves to, or that it
    rejects (time-out, status outside 2xx, network failure). *)
Record t : Type := {
  rapidApiKey : option string;
  httpGet : string -> Exc ResponseData
}.

(** [this.mockMode = !this.rapidApiKey]. *)
Definition mockMode (svc : t) : bool :=
  match rapidApiKey svc with
  | Some k => negb (truthy_str k)
  | None => true
  end.

Definition baseUrl : string :=
  "https://betminer.p.rapidapi.com/bm/predictions/arrays".

Definition calculateWinChanceFromOdds (oddsString : string) : option number :=
  let odds := parseFloat oddsString in
  if isNaN odds || le odds (Num 0) then None
  else Some (round (mul (div (Num 1) odds) (Num 100))).

Definition parseConfidence (confidenceString : option string) : option number :=
  match confidenceString with
  | None => None
  | Some s =>
      if negb (truthy_str s) then None
      else
        let confidence := parseFloat s in
        if isNaN confidence then None else Some (round confidence)
  end.

Definition extractTimeFromDate (dateString : string) : string :=
  let parts := split " " dateString in
  if (2 <=? List.length parts)%nat then substring0 5 (nth 1 parts "")
  else "00:00".

(** The shape shared by the three chance fields:
    [fromOdds(odds) || parseConfidence(conf) || 0]. *)
Definition resolveChance (oddsString : string) (conf : option string) : number :=
  or_num (or_null (calculateWinChanceFromOdds oddsString) (parseConfidence conf))
         (Num 0).

(** The callback given to [map] in [transformBetminerData]. *)
Definition transformMatch (m : BetminerMatch.t) : TP.t :=
  let d := BetminerMatch.details m in
  let o := BetminerMatch.odds m in
  {| TP.homeTeam := Details.homeTeam d;
     TP.awayTeam := Details.awayTeam d;
     TP.homeWinChance :=
       resolveChance (Odds.home_win_odds o) (BetminerMatch.conf m "HOME_WIN");
     TP.awayWinChance :=
       resolveChance (Odds.away_win_odds o) (BetminerMatch.conf m "AWAY_WIN");
     TP.drawChance :=
       resolveChance (Odds.draw_odds o) (BetminerMatch.conf m "DRAW");
     TP.matchTime := extractTimeFromDate (Details.date d);
     TP.competition :=
       or_str (Details.competition_full d) (Details.competition d);
     TP.date := hd "" (split " " (Details.date d));
     TP.country := Some (Details.country d);
     TP.homeWinOdds := or_undefined (parseFloat (Odds.home_win_odds o));
     TP.awayWinOdds := or_undefined (parseFloat (Odds.away_win_odds o));
     TP.drawOdds := or_undefined (parseFloat (Odds.draw_odds o)) |}.

(** The callback given to [filter] in [transformBetminerData]. *)
Definition isValidPrediction (p : TP.t) : bool :=
  truthy_str (TP.homeTeam p) && truthy_str (TP.awayTeam p)
  && gt (TP.homeWinChance p) (Num 0).

Definition transformBetminerData (betminerMatches : list BetminerMatch.t)
  : list TP.t :=
  filter isValidPrediction (map transformMatch betminerMatches).

Definition mockPrediction (home away : string) (h a d : Z) (time comp : string)
    (date country : string) (ho ao dro : Q) : TP.t :=
  {| TP.homeTeam := home; TP.awayTeam := away;
     TP.homeWinChance := Num (inject_Z h);
     TP.awayWinChance := Num (inject_Z a);
     TP.drawChance := Num (inject_Z d);
     TP.matchTime := time; TP.competition := comp; TP.date := date;
     TP.country := Some country;
     TP.homeWinOdds := Some (Num ho);
     TP.awayWinOdds := Some (Num ao);
     TP.drawOdds := Some (Num dro) |}.

Definition getMockPredictions (date : string) : list TP.t :=
  [ mockPrediction "Real Soacha" "Deportes Tolima" 21 62 26
      "00:00" "Colombia Copa Colombia" date "Colombia" 4.75 1.60 3.90;
    mockPrediction "Deportivo Cali" "Union Magdalena" 56 18 32
      "00:30" "Colombia Primera A" date "Colombia" 1.80 5.50 3.10;
    mockPrediction "América W" "Puebla W" 99 1 3
      "01:00" "Mexico Liga MX Femenil" date "Mexico" 1.01 67.00 29.00;
    mockPrediction "Toluca W" "Guadalajara W" 40 38 31
      "01:00" "Mexico Liga MX Femenil" date "Mexico" 2.50 2.60 3.25;
    mockPrediction "Santa Fe" "Millonarios" 36 36 34
      "01:30" "Colombia Primera A" date "Colombia" 2.80 2.75 2.90 ].

(** The URL of the request: the same date as both ends of the range. *)
Definition requestUrl (date : string) : string :=
  baseUrl ++ "/" ++ date ++ "/" ++ date.

(** One GET of [requestUrl date]; a body that is no array, and any
    rejection, end in the sample set. *)
Definition getBetminerPredictions (svc : t) (date : string) : Exc (list TP.t) :=
  exc_catch
    (let url := requestUrl date in
     exc_bind (httpGet svc url) (fun data =>
       match data with
       | ArrayOf betminerMatches => Ok (transformBetminerData betminerMatches)
       | NoData | NotArray => Ok (getMockPredictions date)
       end))
    (fun _ => Ok (getMockPredictions date)).

Definition getPredictions (svc : t) (date : string) : Exc (list TP.t) :=
  if mockMode svc then Ok (getMockPredictions date)
  else getBetminerPredictions svc date.

End FootballApiService.

(* ================================================================== *)
(** ** schema/prediction.schema.ts and dto/predictions.dto.ts *)

(** A document of the predictions collection; [cachedAt] in milliseconds
    since the epoch.  The unused [dateIndex] and the time stamps added by
    the driver are left out. *)
Module Prediction.
Record t : Type := {
  date : string;
  homeTeam : string;
  awayTeam : string;
  homeWinChance : JS.number;
  awayWinChance : JS.number;
  drawChance : JS.number;
  matchTime : string;
  competition : string;
  country : option string;
  homeWinOdds : option JS.number;
  awayWinOdds : option JS.number;
  drawOdds : option JS.number;
  apiSource : string;
  cachedAt : Z
}.

(** [min: 0, max: 100] on a required number. *)
Definition percent (x : JS.number) : bool :=
  JS.le (JS.Num 0) x && JS.le x (JS.Num 100).

(** The validators of the schema: required strings are non-empty, the
    three chances lie between 0 and 100. *)
Definition valid (p : t) : bool :=
  JS.truthy_str (date p) && JS.truthy_str (homeTeam p)
  && JS.truthy_str (awayTeam p)
  && percent (homeWinChance p) && percent (awayWinChance p)
  && percent (drawChance p)
  && JS.truthy_str (matchTime p) && JS.truthy_str (competition p).
End Prediction.

Module PredictionResponseDto.
Record t : Type := {
  homeTeam : string;
  awayTeam : string;
  homeWinChance : JS.number;
  awayWinChance : JS.number;
  drawChance : JS.number;
  matchTime : string;
  competition : string;
  date : string;
  country : option string;
  homeWinOdds : option JS.number;
  awayWinOdds : option JS.number;
  drawOdds : option JS.number
}.
End PredictionResponseDto.

Module PredictionsResult.
Record t : Type := {
  predictions : list PredictionResponseDto.t;
  cached : bool
}.
End PredictionsResult.

(* ================================================================== *)
(** ** The document store *)

(** The collection, in insertion order. *)
Definition Store : Type := list Prediction.t.

(** A computation over the collection that may throw. *)
Definition M (A : Type) : Type := Store -> Exc A * Store.

Definition ret {A} (a : A) : M A := fun st => (Ok a, st).

Definition bind {A B} (m : M A) (k : A -> M B) : M B :=
  fun st =>
    match m st with
    | (Ok a, st') => k a st'
    | (Throw e, st') => (Throw e, st')
    end.

(** An awaited call that does not touch the collection. *)
Definition lift {A} (r : Exc A) : M A := fun st => (r, st).

(** [try { body } catch (e) { handler e }]: what [body] wrote before it
    threw stays written. *)
Definition try_catch {A} (body : M A) (handler : error -> M A) : M A :=
  fun st =>
    match body st with
    | (Ok a, st') => (Ok a, st')
    | (Throw e, st') => handler e st'
    end.

Declare Scope store_scope.
Delimit Scope store_scope with store.
Notation "x <- m ;; k" := (bind m (fun x => k))
  (at level 61, m at next level, right associativity) : store_scope.
Notation "m ;;; k" := (bind m (fun _ => k))
  (at level 61, right associativity) : store_scope.

(** What the model of the collection does on each call: the three
    operations of the driver, each of which may reject. *)
Module Model.
Record faults : Type := {
  findFails : bool;
  deleteManyFails : bool;
  insertManyFails : bool
}.

(** [find({ date, cachedAt: { $gte: threshold } })]. *)
Definition matches (date : string) (threshold : Z) (p : Prediction.t) : bool :=
  String.eqb (Prediction.date p) date && (threshold <=? Prediction.cachedAt p).

Definition find (f : faults) (date : string) (threshold : Z)
  : M (list Prediction.t) :=
  fun st =>
    if findFails f then (Throw StoreUnavailable, st)
    else (Ok (filter (matches date threshold) st), st).

(** [deleteMany({ date })]. *)
Definition deleteMany (f : faults) (date : string) : M unit :=
  fun st =>
    if deleteManyFails f then (Throw StoreUnavailable, st)
    else (Ok tt, filter (fun p => negb (String.eqb (Prediction.date p) date)) st).

(** [insertMany(docs)]: every document is validated first, and one
    invalid document rejects the whole batch. *)
Definition insertMany (f : faults) (docs : list Prediction.t) : M unit :=
  fun st =>
    if insertManyFails f then (Throw StoreUnavailable, st)
    else if forallb Prediction.valid docs then (Ok tt, (st ++ docs)%list)
    else (Throw ValidationError, st).
End Model.

(* ================================================================== *)
(** ** predictions.service.ts *)

Module PredictionsService.
Import JS.
Module TP := TransformedPrediction.
Module Dto := PredictionResponseDto.
Module Res := PredictionsResult.
Local Open Scope store_scope.

(** The injected collaborators and the two clock readings of a request:
    [now] is [Date.now()] on entry, [writeTime] is [new Date()] when the
    documents of a refresh are built. *)
Record t : Type := {
  footballApiService : FootballApiService.t;
  faults : Model.faults;
  now : Z;
  writeTime : Z
}.

Definition TTL : Z := 2 * 60 * 60 * 1000.

(** [teamFilter] is used only when it is given and non-empty. *)
Definition teamFilterGiven (teamFilter : option string) : option string :=
  match teamFilter with
  | Some f => if truthy_str f then Some f else None
  | None => None
  end.

Definition teamMatches (f homeTeam awayTeam : string) : bool :=
  includes (toLowerCase homeTeam) (toLowerCase f)
  || includes (toLowerCase awayTeam) (toLowerCase f).

Definition documentToDto (p : Prediction.t) : Dto.t :=
  {| Dto.homeTeam := Prediction.homeTeam p;
     Dto.awayTeam := Prediction.awayTeam p;
     Dto.homeWinChance := Prediction.homeWinChance p;
     Dto.awayWinChance := Prediction.awayWinChance p;
     Dto.drawChance := Prediction.drawChance p;
     Dto.matchTime := Prediction.matchTime p;
     Dto.competition := Prediction.competition p;
     Dto.date := Prediction.date p;
     Dto.country := Prediction.country p;
     Dto.homeWinOdds := Prediction.homeWinOdds p;
     Dto.awayWinOdds := Prediction.awayWinOdds p;
     Dto.drawOdds := Prediction.drawOdds p |}.

Definition filterAndTransformPredictions (predictions : list Prediction.t)
    (teamFilter : option string) : list Dto.t :=
  let filtered :=
    filter (fun p => gt (Prediction.homeWinChance p) (Num 50)) predictions in
  let filtered :=
    match teamFilterGiven teamFilter with
    | Some f =>
        filter (fun p =>
                  teamMatches f (Prediction.homeTeam p) (Prediction.awayTeam p))
               filtered
    | None => filtered
    end in
  map documentToDto filtered.

Definition filterPredictionsByHomeWinChance (predictions : list TP.t)
  : list TP.t :=
  filter (fun prediction =>
            let homeWinChance := or_default (TP.homeWinChance prediction) (Num 0) in
            gt homeWinChance (Num 50))
         predictions.

Definition transformApiToDto (apiPredictions : list TP.t) : list Dto.t :=
  map (fun prediction =>
         {| Dto.homeTeam := or_str (TP.homeTeam prediction) "Unknown Home";
            Dto.awayTeam := or_str (TP.awayTeam prediction) "Unknown Away";
            Dto.homeWinChance := or_default (TP.homeWinChance prediction) (Num 0);
            Dto.awayWinChance := or_default (TP.awayWinChance prediction) (Num 0);
            Dto.drawChance := or_default (TP.drawChance prediction) (Num 0);
            Dto.matchTime := or_str (TP.matchTime prediction) "00:00";
            Dto.competition := or_str (TP.competition prediction) "Unknown League";
            Dto.date := TP.date prediction;
            Dto.country := TP.country prediction;
            Dto.homeWinOdds := TP.homeWinOdds prediction;
            Dto.awayWinOdds := TP.awayWinOdds prediction;
            Dto.drawOdds := TP.drawOdds prediction |})
      apiPredictions.

(** The document built for one fetched prediction. *)
Definition toDocument (date : string) (cachedAt : Z) (prediction : TP.t)
  : Prediction.t :=
  {| Prediction.date := date;
     Prediction.homeTeam := or_str (TP.homeTeam prediction) "Unknown Home";
     Prediction.awayTeam := or_str (TP.awayTeam prediction) "Unknown Away";
     Prediction.homeWinChance := or_default (TP.homeWinChance prediction) (Num 0);
     Prediction.awayWinChance := or_default (TP.awayWinChance prediction) (Num 0);
     Prediction.drawChance := or_default (TP.drawChance prediction) (Num 0);
     Prediction.matchTime := or_str (TP.matchTime prediction) "00:00";
     Prediction.competition := or_str (TP.competition prediction) "Unknown League";
     Prediction.country := TP.country prediction;
     Prediction.homeWinOdds := TP.homeWinOdds prediction;
     Prediction.awayWinOdds := TP.awayWinOdds prediction;
     Prediction.drawOdds := TP.drawOdds prediction;
     Prediction.apiSource := "betminer";
     Prediction.cachedAt := cachedAt |}.

(** The [try] block of [cacheApiPredictions]. *)
Definition replaceAll (svc : t) (predictions : list TP.t) (date : string)
  : M unit :=
  Model.deleteMany (faults svc) date ;;;
  let predictionDocs := map (toDocument date (writeTime svc)) predictions in
  Model.insertMany (faults svc) predictionDocs.

Definition cacheApiPredictions (svc : t) (predictions : list TP.t)
    (date : string) : M unit :=
  try_catch (replaceAll svc predictions date) (fun _ => ret tt).

Definition applyTeamFilter (teamFilter : option string) (l : list Dto.t)
  : list Dto.t :=
  match teamFilterGiven teamFilter with
  | Some f =>
      filter (fun p => teamMatches f (Dto.homeTeam p) (Dto.awayTeam p)) l
  | None => l
  end.

Definition getPredictionsForDate (svc : t) (date : string)
    (teamFilter : option string) : M Res.t :=
  let cacheThreshold := now svc - TTL in
  cachedPredictions <- Model.find (faults svc) date cacheThreshold ;;
  if (0 <? List.length cachedPredictions)%nat then
    let filteredPredictions :=
      filterAndTransformPredictions cachedPredictions teamFilter in
    ret {| Res.predictions := filteredPredictions; Res.cached := true |}
  else
    apiPredictions <-
      lift (FootballApiService.getPredictions (footballApiService svc) date) ;;
    (if (0 <? List.length apiPredictions)%nat
     then cacheApiPredictions svc apiPredictions date
     else ret tt) ;;;
    let filteredPredictions := filterPredictionsByHomeWinChance apiPredictions in
    let transformedPredictions := transformApiToDto filteredPredictions in
    let finalPredictions := applyTeamFilter teamFilter transformedPredictions in
    ret {| Res.predictions := finalPredictions; Res.cached := false |}.

Definition getAllPredictionsForDate (svc : t) (date : string)
    (teamFilter : option string) : M Res.t :=
  let cacheThreshold := now svc - TTL in
  cachedPredictions <- Model.find (faults svc) date cacheThreshold ;;
  if (0 <? List.length cachedPredictions)%nat then
    let filtered :=
      match teamFilterGiven teamFilter with
      | Some f =>
          filter (fun p =>
                    teamMatches f (Prediction.homeTeam p) (Prediction.awayTeam p))
                 cachedPredictions
      | None => cachedPredictions
      end in
    let transformedPredictions := map documentToDto filtered in
    ret {| Res.predictions := transformedPredictions; Res.cached := true |}
  else
    apiPredictions <-
      lift (FootballApiService.getPredictions (footballApiService svc) date) ;;
    (if (0 <? List.length apiPredictions)%nat
     then cacheApiPredictions svc apiPredictions date
     else ret tt) ;;;
    let transformedPredictions := transformApiToDto apiPredictions in
    let finalPredictions := applyTeamFilter teamFilter transformedPredictions in
    ret {| Res.predictions := finalPredictions; Res.cached := false |}.

(** The records of [date] held by the collection. *)
Definition recordsFor (date : string) (st : Store) : list Prediction.t :=
  filter (fun p => String.eqb (Prediction.date p) date) st.

(** The records of every other date. *)
Definition recordsNotFor (date : string) (st : Store) : list Prediction.t :=
  filter (fun p => negb (String.eqb (Prediction.date p) date)) st.

End PredictionsService.

(* ================================================================== *)
(** ** Sample data *)

Module Fixtures.
Import JS.

Definition offlineApi : FootballApiService.t :=
  {| FootballApiService.rapidApiKey := None;
     FootballApiService.httpGet := fun _ => Throw HttpFailure |}.

Definition liveApi (response : Exc ResponseData) : FootballApiService.t :=
  {| FootballApiService.rapidApiKey := Some "key";
     FootballApiService.httpGet := fun _ => response |}.

Definition noFaults : Model.faults :=
  {| Model.findFails := false;
     Model.deleteManyFails := false;
     Model.insertManyFails := false |}.

Definition insertFault : Model.faults :=
  {| Model.findFails := false;
     Model.deleteManyFails := false;
     Model.insertManyFails := true |}.

Definition service (api : FootballApiService.t) (f : Model.faults) (now : Z)
  : PredictionsService.t :=
  {| PredictionsService.footballApiService := api;
     PredictionsService.faults := f;
     PredictionsService.now := now;
     PredictionsService.writeTime := now + 250 |}.

Definition rawMatch (home away homeOdds : string)
    (conf : list (string * string)) : BetminerMatch.t :=
  {| BetminerMatch.details :=
       {| Details.date := "2025-08-14 18:30:00";
          Details.homeTeam := home;
          Details.awayTeam := away;
          Details.country := "England";
          Details.competition := "PL";
          Details.competition_full := "Premier League" |};
     BetminerMatch.predictions_conf := conf;
     BetminerMatch.odds :=
       {| Odds.home_win_odds := homeOdds;
          Odds.away_win_odds := "4.50";
          Odds.draw_odds := "3.60" |} |}.

Definition favourite : BetminerMatch.t :=
  rawMatch "Arsenal" "Chelsea" "1.80" [("HOME_WIN", "61")].

Definition longShot : BetminerMatch.t :=
  rawMatch "Luton" "Liverpool" "250" [("HOME_WIN", "55")].

Definition nameless : BetminerMatch.t :=
  rawMatch "" "Chelsea" "1.80" [].

Definition document (date home : string) (chance : Z) (cachedAt : Z)
  : Prediction.t :=
  {| Prediction.date := date;
     Prediction.homeTeam := home;
     Prediction.awayTeam := "Visitors";
     Prediction.homeWinChance := Num (inject_Z chance);
     Prediction.awayWinChance := Num 20;
     Prediction.drawChance := Num 20;
     Prediction.matchTime := "18:30";
     Prediction.competition := "Premier League";
     Prediction.country := None;
     Prediction.homeWinOdds := None;
     Prediction.awayWinOdds := None;
     Prediction.drawOdds := None;
     Prediction.apiSource := "betminer";
     Prediction.cachedAt := cachedAt |}.

Definition minute : Z := 60 * 1000.

(** A collection with three records of 2025-08-14, written 119, 121 and
    10 minutes before [now], and one record of another day. *)
Definition collection (now : Z) : Store :=
  [ document "2025-08-14" "Arsenal" 50 (now - 119 * minute);
    document "2025-08-14" "Everton" 80 (now - 121 * minute);
    document "2025-08-14" "Fulham" 64 (now - 10 * minute);
    document "2025-08-15" "Leeds" 70 (now - 10 * minute) ].

Definition noon : Z := 1755172800000.
End Fixtures.

(* ================================================================== *)
(** ** More of the run time: sums, extrema and two-digit rounding *)

Module JSNum.
Import JS.

(** [x + y]. *)
Definition add (x y : number) : number :=
  match x, y with
  | NaN, _ | _, NaN => NaN
  | PosInf, NegInf | NegInf, PosInf => NaN
  | PosInf, _ | _, PosInf => PosInf
  | NegInf, _ | _, NegInf => NegInf
  | Num a, Num b => Num (a + b)
  end.

Definition min2 (x y : number) : number :=
  match x, y with
  | NaN, _ | _, NaN => NaN
  | _, _ => if le x y then x else y
  end.

Definition max2 (x y : number) : number :=
  match x, y with
  | NaN, _ | _, NaN => NaN
  | _, _ => if le y x then x else y
  end.

(** [Math.min(...xs)]; of no argument it is [Infinity]. *)
Definition minimum (xs : list number) : number := fold_right min2 PosInf xs.

(** [Math.max(...xs)]; of no argument it is [-Infinity]. *)
Definition maximum (xs : list number) : number := fold_right max2 NegInf xs.

(** [Number(x.toFixed(2))]: the nearest multiple of 1/100, a tie going
    away from zero; from [1e21] on, [toFixed] prints the number itself. *)
Definition toFixed2 (x : number) : number :=
  match x with
  | Num q =>
      if Qle_bool (inject_Z (10 ^ 21)) (Qabs q) then x
      else if Qle_bool 0 q
           then Num (inject_Z (Qfloor (q * 100 + (1 # 2))) / 100)
           else Num (- (inject_Z (Qfloor (- q * 100 + (1 # 2))) / 100))
  | _ => x
  end.

(** A list length as a number. *)
Definition ofNat (n : nat) : number := Num (inject_Z (Z.of_nat n)).

End JSNum.

(* ================================================================== *)
(** ** predictions.controller.ts *)

(** An object used as a tally keyed by name.  An entry is a count, or the
    text that results when the name is a property every object inherits:
    [(inherited || 0) + 1] is then a string concatenation.  The order of
    the keys of the object is not modelled. *)
Module Breakdown.

Inductive tally : Type :=
| Count (n : Z)
| Text.

Definition t : Type := list (string * tally).

(** The properties of [Object.prototype]. *)
Definition inherited (key : string) : bool :=
  existsb (String.eqb key)
    [ "constructor"; "__defineGetter__"; "__defineSetter__"; "hasOwnProperty";
      "__lookupGetter__"; "__lookupSetter__"; "isPrototypeOf";
      "propertyIsEnumerable"; "toString"; "valueOf"; "__proto__";
      "toLocaleString" ].

Fixpoint get (key : string) (o : t) : option tally :=
  match o with
  | [] => None
  | (k, v) :: o' => if String.eqb k key then Some v else get key o'
  end.

Fixpoint set (key : string) (v : tally) (o : t) : t :=
  match o with
  | [] => [(key, v)]
  | (k, w) :: o' =>
      if String.eqb k key then (k, v) :: o' else (k, w) :: set key v o'
  end.

(** [o[key] = (o[key] || 0) + 1].  Assigning a string to [__proto__] is
    ignored. *)
Definition bump (key : string) (o : t) : t :=
  if String.eqb key "__proto__" then o
  else
    match get key o with
    | Some (Count n) => set key (Count (n + 1)) o
    | Some Text => set key Text o
    | None => set key (if inherited key then Text else Count 1) o
    end.

End Breakdown.

Module PredictionStats.

Record range : Type := {
  minHomeWinOdds : JS.number;
  maxHomeWinOdds : JS.number;
  avgHomeWinOdds : JS.number
}.

Record t : Type := {
  totalMatches : nat;
  highConfidenceMatches : nat;
  mediumConfidenceMatches : nat;
  competitionBreakdown : Breakdown.t;
  countryBreakdown : Breakdown.t;
  averageHomeWinChance : JS.number;
  oddsRange : range
}.

End PredictionStats.

(** What a handler throws: an [HttpException], or anything else. *)
Inductive thrown : Type :=
| HttpException (status : Z) (message : string)
| Other (e : error).

Module PredictionsController.
Import JS JSNum.
Module Dto := PredictionResponseDto.
Module Res := PredictionsResult.
Module Stats := PredictionStats.

(** The injected service, and the one part of [isValidDateFormat] that
    depends on the engine and on the time zone of the process: whether the
    local year, month and day of [new Date(date)] are those written in
    [date]. *)
Record t : Type := {
  predictionsService : PredictionsService.t;
  calendarAgrees : string -> bool
}.

Definition BAD_REQUEST : Z := 400.
Definition INTERNAL_SERVER_ERROR : Z := 500.

(** A handler: a reply or something thrown, and the collection after. *)
Definition Handler (A : Type) : Type := Store -> (A + thrown) * Store.

Record meta : Type := {
  date : string;
  count : nat;
  cached : bool;
  filter : option string
}.

Record reply : Type := {
  data : list Dto.t;
  replyMeta : meta
}.

Record statsMeta : Type := {
  statsDate : string;
  statsCached : bool
}.

Record statsReply : Type := {
  statsData : Stats.t;
  statsReplyMeta : statsMeta
}.

Fixpoint all_digits (s : string) : bool :=
  match s with
  | EmptyString => true
  | String c s' => is_digit c && all_digits s'
  end.

(** [/^\d{4}-\d{2}-\d{2}$/.test(date)]. *)
Definition dateRegex (date : string) : bool :=
  (String.length date =? 10)%nat
  && all_digits (String.substring 0 4 date)
  && String.eqb (String.substring 4 1 date) "-"
  && all_digits (String.substring 5 2 date)
  && String.eqb (String.substring 7 1 date) "-"
  && all_digits (String.substring 8 2 date).

Definition isValidDateFormat (ctl : t) (date : string) : bool :=
  if negb (dateRegex date) then false
  else calendarAgrees ctl date.

(** The two checks every handler starts with. *)
Definition checkDate (ctl : t) (date : option string) : string + thrown :=
  match date with
  | None => inr (HttpException BAD_REQUEST "Date parameter is required")
  | Some d =>
      if negb (truthy_str d)
      then inr (HttpException BAD_REQUEST "Date parameter is required")
      else if negb (isValidDateFormat ctl d)
           then inr (HttpException BAD_REQUEST
                       "Invalid date format. Please use YYYY-MM-DD format.")
           else inl d
  end.

(** The [catch] of every handler: an [HttpException] is thrown again,
    anything else becomes a 500 with the given message. *)
Definition rethrow (message : string) (x : thrown) : thrown :=
  match x with
  | HttpException status m => HttpException status m
  | Other _ => HttpException INTERNAL_SERVER_ERROR message
  end.

(** An awaited call of the service inside a handler. *)
Definition await {A} (m : M A) : Handler A :=
  fun st =>
    match m st with
    | (Ok a, st') => (inl a, st')
    | (Throw e, st') => (inr (Other e), st')
    end.

Definition handle {A} (message : string) (body : Handler A) : Handler A :=
  fun st =>
    match body st with
    | (inl a, st') => (inl a, st')
    | (inr x, st') => (inr (rethrow message x), st')
    end.

Definition respond (d : string) (teamFilter : option string) (result : Res.t)
  : reply :=
  {| data := Res.predictions result;
     replyMeta :=
       {| date := d;
          count := List.length (Res.predictions result);
          cached := Res.cached result;
          filter := PredictionsService.teamFilterGiven teamFilter |} |}.

Definition getPredictions (ctl : t) (date teamFilter : option string)
  : Handler reply :=
  handle "Failed to retrieve predictions"
    (fun st =>
       match checkDate ctl date with
       | inr x => (inr x, st)
       | inl d =>
           match await (PredictionsService.getPredictionsForDate
                          (predictionsService ctl) d teamFilter) st with
           | (inl result, st') => (inl (respond d teamFilter result), st')
           | (inr x, st') => (inr x, st')
           end
       end).

Definition getAllPredictions (ctl : t) (date teamFilter : option string)
  : Handler reply :=
  handle "Failed to retrieve all predictions"
    (fun st =>
       match checkDate ctl date with
       | inr x => (inr x, st)
       | inl d =>
           match await (PredictionsService.getAllPredictionsForDate
                          (predictionsService ctl) d teamFilter) st with
           | (inl result, st') => (inl (respond d teamFilter result), st')
           | (inr x, st') => (inr x, st')
           end
       end).

Definition isHigh (p : Dto.t) : bool := gt (Dto.homeWinChance p) (Num 70).

Definition isMedium (p : Dto.t) : bool :=
  ge (Dto.homeWinChance p) (Num 50) && le (Dto.homeWinChance p) (Num 70).

(** [p.homeWinOdds && p.homeWinOdds > 0]. *)
Definition hasValidOdds (p : Dto.t) : bool :=
  match Dto.homeWinOdds p with
  | Some x => truthy x && gt x (Num 0)
  | None => false
  end.

(** [p.homeWinOdds!] *)
Definition homeWinOddsOf (p : Dto.t) : number :=
  match Dto.homeWinOdds p with
  | Some x => x
  | None => NaN
  end.

Definition calculatePredictionStats (predictions : list Dto.t) : Stats.t :=
  let totalMatches := List.length predictions in
  let highConfidenceMatches := List.length (List.filter isHigh predictions) in
  let mediumConfidenceMatches := List.length (List.filter isMedium predictions) in
  let competitionBreakdown :=
    fold_left (fun o p => Breakdown.bump (Dto.competition p) o) predictions [] in
  let countryBreakdown :=
    fold_left (fun o p =>
                 match Dto.country p with
                 | Some c => if truthy_str c then Breakdown.bump c o else o
                 | None => o
                 end) predictions [] in
  let averageHomeWinChance :=
    if (0 <? totalMatches)%nat
    then round (div (fold_left (fun sum p => add sum (Dto.homeWinChance p))
                               predictions (Num 0))
                    (ofNat totalMatches))
    else Num 0 in
  let validOdds := List.filter hasValidOdds predictions in
  let oddsRange :=
    if (0 <? List.length validOdds)%nat
    then {| Stats.minHomeWinOdds := minimum (map homeWinOddsOf validOdds);
            Stats.maxHomeWinOdds := maximum (map homeWinOddsOf validOdds);
            Stats.avgHomeWinOdds :=
              toFixed2 (div (fold_left (fun sum p => add sum (homeWinOddsOf p))
                                       validOdds (Num 0))
                            (ofNat (List.length validOdds))) |}
    else {| Stats.minHomeWinOdds := Num 0;
            Stats.maxHomeWinOdds := Num 0;
            Stats.avgHomeWinOdds := Num 0 |} in
  {| Stats.totalMatches := totalMatches;
     Stats.highConfidenceMatches := highConfidenceMatches;
     Stats.mediumConfidenceMatches := mediumConfidenceMatches;
     Stats.competitionBreakdown := competitionBreakdown;
     Stats.countryBreakdown := countryBreakdown;
     Stats.averageHomeWinChance := averageHomeWinChance;
     Stats.oddsRange := oddsRange |}.

Definition getPredictionStats (ctl : t) (date : option string)
  : Handler statsReply :=
  handle "Failed to retrieve prediction statistics"
    (fun st =>
       match checkDate ctl date with
       | inr x => (inr x, st)
       | inl d =>
           match await (PredictionsService.getAllPredictionsForDate
                          (predictionsService ctl) d None) st with
           | (inl result, st') =>
               (inl {| statsData := calculatePredictionStats (Res.predictions result);
                       statsReplyMeta :=
                         {| statsDate := d; statsCached := Res.cached result |} |},
                st')
           | (inr x, st') => (inr x, st')
           end
       end).

End PredictionsController.

Module MoreFixtures.
Import JS.

Definition dto (home competition : string) (country : option string)
    (chance : Z) (odds : option JS.number) : PredictionResponseDto.t :=
  {| PredictionResponseDto.homeTeam := home;
     PredictionResponseDto.awayTeam := "Visitors";
     PredictionResponseDto.homeWinChance := Num (inject_Z chance);
     PredictionResponseDto.awayWinChance := Num 20;
     PredictionResponseDto.drawChance := Num 20;
     PredictionResponseDto.matchTime := "18:30";
     PredictionResponseDto.competition := competition;
     PredictionResponseDto.date := "2025-08-14";
     PredictionResponseDto.country := country;
     PredictionResponseDto.homeWinOdds := odds;
     PredictionResponseDto.awayWinOdds := None;
     PredictionResponseDto.drawOdds := None |}.

(** Five records with the home chances 21, 56, 99, 40 and 36. *)
Definition fiveRecords : list PredictionResponseDto.t :=
  [ dto "Real Soacha" "Copa" (Some "Colombia") 21 (Some (Num 4.75));
    dto "Deportivo Cali" "Primera A" (Some "Colombia") 56 (Some (Num 1.80));
    dto "America" "Liga MX" (Some "Mexico") 99 (Some (Num 1.01));
    dto "Toluca" "Liga MX" None 40 None;
    dto "Santa Fe" "Primera A" (Some "") 36 (Some (Num 2.80)) ].

Definition controller (svc : PredictionsService.t) : PredictionsController.t :=
  {| PredictionsController.predictionsService := svc;
     PredictionsController.calendarAgrees := fun _ => true |}.

End MoreFixtures.

(* ================================================================== *)
(** ** Vocabulary of the statements *)

(** [chance] is resolved from the two candidate values in the order of
    the code: the value from the odds when it is truthy, else the value
    from the confidence when that is truthy, else zero. *)
Definition resolves (fromOdds fromConf : option JS.number) (chance : JS.number)
  : Prop :=
  (forall v, fromOdds = Some v -> JS.truthy v = true -> chance = v)
  /\ (forall c, JS.truthy_opt fromOdds = false -> fromConf = Some c ->
                JS.truthy c = true -> chance = c)
  /\ (JS.truthy_opt fromOdds = false -> JS.truthy_opt fromConf = false ->
      chance = JS.Num 0).

(** The three conditions a normalised record has to meet. *)
Definition wellFormed (homeTeam awayTeam : string) (homeWinChance : JS.number)
  : Prop :=
  homeTeam <> "" /\ awayTeam <> "" /\ JS.gt homeWinChance (JS.Num 0) = true.


(** [c] occurs in [s]. *)
Fixpoint mentions (c : ascii) (s : string) : bool :=
  match s with
  | EmptyString => false
  | String a s' => Ascii.eqb a c || mentions c s'
  end.



(** How many records satisfy a test. *)
Definition howMany {A} (f : A -> bool) (l : list A) : Z :=
  Z.of_nat (List.length (List.filter f l)).

(** The text has the shape dddd-dd-dd. *)
Definition dateShaped (s : string) : Prop :=
  exists y m d : string,
    s = y ++ "-" ++ m ++ "-" ++ d
    /\ String.length y = 4%nat /\ String.length m = 2%nat
    /\ String.length d = 2%nat
    /\ PredictionsController.all_digits y = true
    /\ PredictionsController.all_digits m = true
    /\ PredictionsController.all_digits d = true.


(** The entry of a name that was tallied [n] times. *)
Definition tallyOf (n : Z) : option Breakdown.tally :=
  if n =? 0 then None else Some (Breakdown.Count n).

(* ================================================================== *)
(** ** Facts about numbers *)

Import JS.

Lemma Qltb_lt (a b : Q) : Qltb a b = true <-> (a < b)%Q.
Proof.
  unfold Qltb. rewrite negb_true_iff.
  split; intro H.
  - apply Qnot_le_lt. intro Hle. apply Qle_bool_iff in Hle. congruence.
  - destruct (Qle_bool b a) eqn:E; [|reflexivity].
    apply Qle_bool_iff in E. exfalso. exact (Qlt_not_le _ _ H E).
Qed.

Lemma Qle_bool_false (a b : Q) : Qle_bool a b = false <-> (b < a)%Q.
Proof.
  rewrite <- Qltb_lt. unfold Qltb. now rewrite negb_true_iff.
Qed.

Lemma gt_Num (a b : Q) : gt (Num a) (Num b) = true <-> (b < a)%Q.
Proof. unfold gt; simpl. apply Qltb_lt. Qed.

Lemma truthy_Num (q : Q) : truthy (Num q) = true <-> ~ (q == 0)%Q.
Proof.
  simpl. rewrite negb_true_iff. split; intro H.
  - intro E. apply Qeq_bool_iff in E. congruence.
  - destruct (Qeq_bool q 0) eqn:E; [|reflexivity].
    apply Qeq_bool_iff in E. contradiction.
Qed.

Lemma truthy_Z (n : Z) : truthy (Num (inject_Z n)) = true <-> n <> 0%Z.
Proof.
  rewrite truthy_Num. unfold Qeq; simpl. lia.
Qed.

(** A number above zero is truthy. *)
Lemma gt_zero_truthy (x : number) : gt x (Num 0) = true -> truthy x = true.
Proof.
  destruct x as [| | |q]; simpl; try discriminate; try reflexivity.
  intro H. apply gt_Num in H. apply truthy_Num.
  intro E. rewrite E in H. exact (Qlt_irrefl _ H).
Qed.

Lemma or_default_gt (x : number) (b : Q) :
  (0 <= b)%Q -> gt (or_default x (Num 0)) (Num b) = gt x (Num b).
Proof.
  intro Hb. unfold or_default.
  destruct (truthy x) eqn:T; [reflexivity|].
  destruct x as [| | |q]; simpl in *; try discriminate; try reflexivity.
  - unfold gt; simpl. unfold Qltb.
    assert (E : Qle_bool 0 b = true) by now apply Qle_bool_iff.
    now rewrite E.
  - rewrite negb_false_iff in T. apply Qeq_bool_iff in T.
    unfold gt; simpl. unfold Qltb.
    assert (E1 : Qle_bool 0 b = true) by now apply Qle_bool_iff.
    assert (E2 : Qle_bool q b = true) by (apply Qle_bool_iff; now rewrite T).
    now rewrite E1, E2.
Qed.

(** The value of [round ((1 / o) * 100)] for positive odds. *)
Lemma implied_probability (o : Q) :
  (0 < o)%Q ->
  round (mul (div (Num 1) (Num o)) (Num 100))
  = Num (inject_Z (Qfloor (100 / o + (1 # 2)))).
Proof.
  intro Ho. unfold div.
  assert (C : (o ?= 0)%Q = Gt) by now apply Qgt_alt.
  rewrite C. unfold mul, round. do 2 f_equal.
  apply Qfloor_comp.
  assert (N : ~ (o == 0)%Q) by (intro E; rewrite E in Ho; exact (Qlt_irrefl _ Ho)).
  field. exact N.
Qed.


Lemma fromOdds_positive (s : string) (o : Q) :
  parseFloat s = Num o -> (0 < o)%Q ->
  FootballApiService.calculateWinChanceFromOdds s
  = Some (Num (inject_Z (Qfloor (100 / o + (1 # 2))))).
Proof.
  intros P Ho. unfold FootballApiService.calculateWinChanceFromOdds.
  rewrite P. cbn [isNaN le orb].
  assert (E : Qle_bool o 0 = false) by now apply Qle_bool_false.
  rewrite E. f_equal. now apply implied_probability.
Qed.

Lemma Qfloor_nonneg (x : Q) : (0 <= x)%Q -> (0 <= Qfloor x)%Z.
Proof.
  intro H. change 0%Z with (Qfloor 0). now apply Qfloor_resp_le.
Qed.

Lemma percent_nonneg (o : Q) : (0 < o)%Q -> (0 <= Qfloor (100 / o + (1 # 2)))%Z.
Proof.
  intro Ho. apply Qfloor_nonneg.
  assert (0 < 100 / o)%Q.
  { apply Qlt_shift_div_l; [exact Ho|]. lra. }
  lra.
Qed.

(** Rounding stays at or below [k] exactly below [k + 1/2]. *)
Lemma round_le_iff (x : Q) (k : Z) :
  (Qfloor (x + (1 # 2)) <= k)%Z <-> (x < inject_Z k + (1 # 2))%Q.
Proof.
  pose proof (Qfloor_le (x + (1 # 2))) as L.
  pose proof (Qlt_floor (x + (1 # 2))) as U.
  rewrite inject_Z_plus in U. change (inject_Z 1) with 1%Q in U.
  split; intro H.
  - assert (Hq : (inject_Z (Qfloor (x + (1 # 2))) <= inject_Z k)%Q)
      by (rewrite <- Zle_Qle; exact H).
    generalize dependent (inject_Z (Qfloor (x + (1 # 2)))). intros. lra.
  - destruct (Z_le_gt_dec (Qfloor (x + (1 # 2))) k) as [Hle|Hgt]; [exact Hle|exfalso].
    assert (Hq : (inject_Z (k + 1) <= inject_Z (Qfloor (x + (1 # 2))))%Q)
      by (rewrite <- Zle_Qle; lia).
    rewrite inject_Z_plus in Hq. change (inject_Z 1) with 1%Q in Hq.
    generalize dependent (inject_Z (Qfloor (x + (1 # 2)))). intros. 
    generalize dependent (inject_Z k). intros. lra.
Qed.

(** The rounded percentage is at most [k] exactly when
    [200 < (2k + 1) * o]. *)
Lemma percent_le_iff (o : Q) (k : Z) :
  (0 < o)%Q ->
  (Qfloor (100 / o + (1 # 2)) <= k)%Z
  <-> (200 < (2 * inject_Z k + 1) * o)%Q.
Proof.
  intro Ho. rewrite round_le_iff.
  assert (N : ~ (o == 0)%Q) by (intro E; rewrite E in Ho; exact (Qlt_irrefl _ Ho)).
  assert (D : (100 / o * o == 100)%Q) by (field; exact N).
  generalize dependent (inject_Z k). intro y.
  split; intro H.
  - assert (Y : (100 / o * o < (y + (1 # 2)) * o)%Q)
      by (apply Qmult_lt_compat_r; assumption).
    rewrite D in Y. lra.
  - apply Qnot_le_lt. intro X.
    assert (Y : ((y + (1 # 2)) * o <= 100 / o * o)%Q)
      by (apply Qmult_le_compat_r; [exact X | now apply Qlt_le_weak]).
    rewrite D in Y. lra.
Qed.

(* ================================================================== *)
(** ** Odds to percentage *)

Import FootballApiService.






(* ================================================================== *)
(** ** Resolution of the chance fields *)

Lemma resolveChance_resolves (oddsString : string) (conf : option string) :
  resolves (calculateWinChanceFromOdds oddsString) (parseConfidence conf)
           (resolveChance oddsString conf).
Proof.
  unfold resolves, resolveChance, or_num, or_null.
  destruct (calculateWinChanceFromOdds oddsString) as [v|];
    destruct (parseConfidence conf) as [c|]; cbn [truthy_opt].
  - repeat split.
    + intros v' E T. injection E as <-. now rewrite T, T.
    + intros c' T E T'. injection E as <-. now rewrite T, T'.
    + intros T T'. now rewrite T, T'.
  - repeat split.
    + intros v' E T. injection E as <-. now rewrite T, T.
    + discriminate.
    + intros T _. now rewrite T.
  - repeat split.
    + discriminate.
    + intros c' _ E T'. injection E as <-. now rewrite T'.
    + intros _ T'. now rewrite T'.
  - repeat split; discriminate.
Qed.

(** Odds in the range (0, 200] give a non-zero percentage, which wins. *)
Lemma resolveChance_from_odds (oddsString : string) (conf : option string) (o : Q) :
  parseFloat oddsString = Num o -> (0 < o)%Q -> (o <= 200)%Q ->
  resolveChance oddsString conf = round (Num (100 / o)).
Proof.
  intros P Ho Hle.
  destruct (resolveChance_resolves oddsString conf) as [H _].
  apply H; [now apply fromOdds_positive|].
  cbn [round]. apply truthy_Z.
  pose proof (percent_nonneg o Ho) as N.
  pose proof (percent_le_iff o 0 Ho) as I.
  intro E. rewrite E in I.
  assert (X : (200 < (2 * inject_Z 0 + 1) * o)%Q) by (apply I; lia).
  change (inject_Z 0) with 0%Q in X. lra.
Qed.

(** C7.  The odds-derived value is to be preferred whenever the odds are
    parsable and positive.  For the home odds "250" it is not: the odds are
    parsable and positive and give the percentage 0, the [||] chain takes
    that 0 for a missing value, and the home chance becomes the
    confidence 55. *)
Lemma chance_skips_zero_percentage :
  let m := Fixtures.longShot in
  parseFloat (Odds.home_win_odds (BetminerMatch.odds m)) = Num 250
  /\ (0 < 250)%Q
  /\ calculateWinChanceFromOdds (Odds.home_win_odds (BetminerMatch.odds m))
     = Some (Num 0)
  /\ parseConfidence (BetminerMatch.conf m "HOME_WIN") = Some (Num 55)
  /\ TransformedPrediction.homeWinChance (transformMatch m) = Num 55
  /\ TransformedPrediction.homeWinChance (transformMatch m) <> Num 0.
Proof.
  cbv zeta. do 5 (split; [reflexivity|]).
  intro E. discriminate E.
Qed.

(** What the [||] chain computes.  For every raw upstream match, each of
    the three chance fields is the value derived from the odds whenever
    that value is available and not zero, which it is whenever the odds
    parse to a value in (0, 200]; otherwise it is the parsed confidence
    when that is available and not zero; otherwise it is 0. *)
Theorem chances_resolved_in_order (m : BetminerMatch.t) :
  let o := BetminerMatch.odds m in
  let p := transformMatch m in
  (resolves (calculateWinChanceFromOdds (Odds.home_win_odds o))
            (parseConfidence (BetminerMatch.conf m "HOME_WIN"))
            (TransformedPrediction.homeWinChance p)
   /\ resolves (calculateWinChanceFromOdds (Odds.away_win_odds o))
               (parseConfidence (BetminerMatch.conf m "AWAY_WIN"))
               (TransformedPrediction.awayWinChance p)
   /\ resolves (calculateWinChanceFromOdds (Odds.draw_odds o))
               (parseConfidence (BetminerMatch.conf m "DRAW"))
               (TransformedPrediction.drawChance p))
  /\ (forall q : Q, (0 < q)%Q -> (q <= 200)%Q ->
        (parseFloat (Odds.home_win_odds o) = Num q ->
         TransformedPrediction.homeWinChance p = round (Num (100 / q)))
        /\ (parseFloat (Odds.away_win_odds o) = Num q ->
            TransformedPrediction.awayWinChance p = round (Num (100 / q)))
        /\ (parseFloat (Odds.draw_odds o) = Num q ->
            TransformedPrediction.drawChance p = round (Num (100 / q)))).
Proof.
  cbv zeta. split.
  - repeat split; apply resolveChance_resolves.
  - intros q Hq Hle. repeat split; intro P;
      cbn [transformMatch TransformedPrediction.homeWinChance
           TransformedPrediction.awayWinChance TransformedPrediction.drawChance];
      now apply resolveChance_from_odds.
Qed.

Lemma chances_resolved_in_order_witness :
  TransformedPrediction.homeWinChance (transformMatch Fixtures.favourite) = Num 56
  /\ TransformedPrediction.awayWinChance (transformMatch Fixtures.favourite) = Num 22
  /\ TransformedPrediction.homeWinChance (transformMatch Fixtures.longShot) = Num 55.
Proof.
  pose proof (chances_resolved_in_order Fixtures.favourite) as [_ F].
  pose proof (chances_resolved_in_order Fixtures.longShot) as [[[_ [L _]] _] _].
  split; [|split].
  - destruct (F (9 # 5) eq_refl ltac:(discriminate)) as [H _].
    rewrite (H eq_refl). reflexivity.
  - destruct (F (9 # 2) eq_refl ltac:(discriminate)) as [_ [H _]].
    rewrite (H eq_refl). reflexivity.
  - apply L; reflexivity.
Defined.

(* ================================================================== *)
(** ** The upstream source *)

Lemma getPredictions_total (svc : FootballApiService.t) (date : string) :
  exists records, getPredictions svc date = Ok records.
Proof.
  unfold getPredictions, getBetminerPredictions, exc_catch, exc_bind.
  destruct (mockMode svc); [eauto|].
  destruct (httpGet svc (requestUrl date)) as [[| |ms]|e]; eauto.
Qed.

(** C5.  In live mode, when the request is rejected or the body of the
    response is no array, fetchPredictions returns the built-in sample set
    of the requested date, the very result of offline mode; and whatever
    the upstream does, fetchPredictions returns a record sequence and never
    an error. *)
Theorem live_failure_gives_sample_set (svc : FootballApiService.t) (date : string) :
  (mockMode svc = false ->
   (exists e, httpGet svc (requestUrl date) = Throw e)
   \/ httpGet svc (requestUrl date) = Ok NoData
   \/ httpGet svc (requestUrl date) = Ok NotArray ->
   getPredictions svc date = Ok (getMockPredictions date)
   /\ forall offline, mockMode offline = true ->
        getPredictions svc date = getPredictions offline date)
  /\ exists records, getPredictions svc date = Ok records.
Proof.
  split; [|apply getPredictions_total].
  intros Live H.
  assert (E : getPredictions svc date = Ok (getMockPredictions date)).
  { unfold getPredictions, getBetminerPredictions, exc_catch, exc_bind.
    rewrite Live. destruct H as [[e H]|[H|H]]; now rewrite H. }
  split; [exact E|].
  intros offline Off. rewrite E. unfold getPredictions. now rewrite Off.
Qed.

Lemma live_failure_gives_sample_set_witness :
  getPredictions (Fixtures.liveApi (Throw HttpFailure)) "2025-08-12"
  = Ok (getMockPredictions "2025-08-12")
  /\ getPredictions (Fixtures.liveApi (Ok NotArray)) "2025-08-12"
     = getPredictions Fixtures.offlineApi "2025-08-12".
Proof.
  split.
  - apply (proj1 (live_failure_gives_sample_set
                    (Fixtures.liveApi (Throw HttpFailure)) "2025-08-12"));
      [reflexivity|]. left. exists HttpFailure. reflexivity.
  - apply (proj1 (live_failure_gives_sample_set
                    (Fixtures.liveApi (Ok NotArray)) "2025-08-12"));
      [reflexivity| |reflexivity]. right. right. reflexivity.
Defined.

(* ================================================================== *)
(** ** Normalised records *)

Lemma truthy_str_nonempty (s : string) : truthy_str s = true <-> s <> "".
Proof.
  destruct s; simpl; split; intro H; try discriminate; try reflexivity.
  now contradiction H.
Qed.

Lemma isValidPrediction_wellFormed (p : TransformedPrediction.t) :
  isValidPrediction p = true
  <-> wellFormed (TransformedPrediction.homeTeam p)
                 (TransformedPrediction.awayTeam p)
                 (TransformedPrediction.homeWinChance p).
Proof.
  unfold isValidPrediction, wellFormed.
  rewrite !andb_true_iff, !truthy_str_nonempty. tauto.
Qed.

Lemma mock_wellFormed (date : string) (p : TransformedPrediction.t) :
  In p (getMockPredictions date) ->
  wellFormed (TransformedPrediction.homeTeam p)
             (TransformedPrediction.awayTeam p)
             (TransformedPrediction.homeWinChance p).
Proof.
  intro H. apply isValidPrediction_wellFormed.
  simpl in H.
  destruct H as [<-|[<-|[<-|[<-|[<-|[]]]]]]; reflexivity.
Qed.

Lemma transformBetminerData_wellFormed (ms : list BetminerMatch.t)
    (p : TransformedPrediction.t) :
  In p (transformBetminerData ms) ->
  wellFormed (TransformedPrediction.homeTeam p)
             (TransformedPrediction.awayTeam p)
             (TransformedPrediction.homeWinChance p).
Proof.
  unfold transformBetminerData. intro H.
  apply filter_In in H. now apply isValidPrediction_wellFormed.
Qed.

(** Whatever [getPredictions] returns is well formed. *)
Lemma getPredictions_wellFormed (svc : FootballApiService.t) (date : string)
    (records : list TransformedPrediction.t) (p : TransformedPrediction.t) :
  getPredictions svc date = Ok records -> In p records ->
  wellFormed (TransformedPrediction.homeTeam p)
             (TransformedPrediction.awayTeam p)
             (TransformedPrediction.homeWinChance p).
Proof.
  unfold getPredictions, getBetminerPredictions, exc_catch, exc_bind.
  destruct (mockMode svc).
  - intros [= <-]. apply mock_wellFormed.
  - destruct (httpGet svc (requestUrl date)) as [[| |ms]|e]; intros [= <-];
      try apply mock_wellFormed.
    apply transformBetminerData_wellFormed.
Qed.

(* ================================================================== *)
(** ** The refresh *)

Import PredictionsService.

(** The three ways a refresh can end. *)
Lemma replaceAll_cases (svc : PredictionsService.t)
    (R : list TransformedPrediction.t) (date : string) (st : Store) :
  let docs := map (toDocument date (writeTime svc)) R in
  (exists e, replaceAll svc R date st = (Throw e, st))
  \/ (exists e, replaceAll svc R date st = (Throw e, recordsNotFor date st))
  \/ replaceAll svc R date st = (Ok tt, (recordsNotFor date st ++ docs)%list).
Proof.
  cbv zeta. unfold replaceAll, bind, Model.deleteMany, Model.insertMany, recordsNotFor.
  destruct (Model.deleteManyFails (faults svc)); [left; eauto|].
  destruct (Model.insertManyFails (faults svc)); [right; left; eauto|].
  destruct (forallb Prediction.valid _); [right; right; reflexivity|].
  right; left; eauto.
Qed.


(** [cacheApiPredictions] never throws, and its effect is that of the
    refresh it wraps. *)
Lemma cacheApiPredictions_swallows (svc : PredictionsService.t)
    (R : list TransformedPrediction.t) (date : string) (st : Store) :
  cacheApiPredictions svc R date st = (Ok tt, snd (replaceAll svc R date st)).
Proof.
  unfold cacheApiPredictions, try_catch, ret.
  destruct (replaceAll svc R date st) as [[[]|e] st']; reflexivity.
Qed.

Lemma recordsFor_app (date : string) (a b : Store) :
  recordsFor date (a ++ b)%list = (recordsFor date a ++ recordsFor date b)%list.
Proof. apply filter_app. Qed.

Lemma recordsNotFor_app (date : string) (a b : Store) :
  recordsNotFor date (a ++ b)%list = (recordsNotFor date a ++ recordsNotFor date b)%list.
Proof. apply filter_app. Qed.

Lemma recordsFor_recordsNotFor (date : string) (st : Store) :
  recordsFor date (recordsNotFor date st) = [].
Proof.
  unfold recordsFor, recordsNotFor.
  induction st as [|p st IH]; [reflexivity|].
  simpl. destruct (String.eqb (Prediction.date p) date) eqn:E; simpl.
  - exact IH.
  - now rewrite E.
Qed.

Lemma recordsNotFor_idem (date : string) (st : Store) :
  recordsNotFor date (recordsNotFor date st) = recordsNotFor date st.
Proof.
  unfold recordsNotFor.
  induction st as [|p st IH]; [reflexivity|].
  simpl. destruct (String.eqb (Prediction.date p) date) eqn:E; simpl.
  - exact IH.
  - rewrite E. simpl. now rewrite IH.
Qed.

Lemma recordsFor_documents (date : string) (at_ : Z)
    (R : list TransformedPrediction.t) :
  recordsFor date (map (toDocument date at_) R) = map (toDocument date at_) R.
Proof.
  unfold recordsFor.
  induction R as [|p R IH]; [reflexivity|].
  simpl. rewrite String.eqb_refl. now rewrite IH.
Qed.

Lemma recordsNotFor_documents (date : string) (at_ : Z)
    (R : list TransformedPrediction.t) :
  recordsNotFor date (map (toDocument date at_) R) = [].
Proof.
  unfold recordsNotFor.
  induction R as [|p R IH]; [reflexivity|].
  simpl. rewrite String.eqb_refl. exact IH.
Qed.




(* ================================================================== *)
(** ** The two query operations *)

(** The records a query finds fresh. *)
Lemma find_ok (svc : PredictionsService.t) (date : string) (st : Store) :
  Model.findFails (faults svc) = false ->
  Model.find (faults svc) date (now svc - TTL) st
  = (Ok (filter (Model.matches date (now svc - TTL)) st), st).
Proof. unfold Model.find. now intros ->. Qed.

Lemma length_positive {A} (l : list A) :
  (0 <? List.length l)%nat = true <-> l <> [].
Proof.
  destruct l; simpl; split; intro H; try discriminate; try reflexivity.
  now contradiction H.
Qed.

Lemma length_zero {A} (l : list A) :
  (0 <? List.length l)%nat = false <-> l = [].
Proof.
  destruct l; simpl; split; intro H; try discriminate; reflexivity.
Qed.

(** Served from the cache. *)
Lemma getPredictionsForDate_hit (svc : PredictionsService.t) (date : string)
    (teamFilter : option string) (st : Store) :
  Model.findFails (faults svc) = false ->
  filter (Model.matches date (now svc - TTL)) st <> [] ->
  getPredictionsForDate svc date teamFilter st
  = (Ok {| PredictionsResult.predictions :=
             filterAndTransformPredictions
               (filter (Model.matches date (now svc - TTL)) st) teamFilter;
           PredictionsResult.cached := true |}, st).
Proof.
  intros F N. unfold getPredictionsForDate, bind. rewrite (find_ok _ _ _ F).
  apply length_positive in N. now rewrite N.
Qed.

(** Fetched: the result depends on the fetched records only; the
    collection is the one the refresh leaves. *)
Lemma getPredictionsForDate_miss (svc : PredictionsService.t) (date : string)
    (teamFilter : option string) (st : Store)
    (R : list TransformedPrediction.t) :
  Model.findFails (faults svc) = false ->
  filter (Model.matches date (now svc - TTL)) st = [] ->
  getPredictions (footballApiService svc) date = Ok R ->
  getPredictionsForDate svc date teamFilter st
  = (Ok {| PredictionsResult.predictions :=
             applyTeamFilter teamFilter
               (transformApiToDto (filterPredictionsByHomeWinChance R));
           PredictionsResult.cached := false |},
     if (0 <? List.length R)%nat then snd (replaceAll svc R date st) else st).
Proof.
  intros F N G. unfold getPredictionsForDate, bind. rewrite (find_ok _ _ _ F).
  rewrite N. cbn [List.length Nat.ltb Nat.leb]. unfold lift. rewrite G.
  destruct R as [|x R]; cbn [List.length]; cbv beta iota.
  - reflexivity.
  - now rewrite cacheApiPredictions_swallows.
Qed.

Lemma getAllPredictionsForDate_hit (svc : PredictionsService.t) (date : string)
    (teamFilter : option string) (st : Store) :
  Model.findFails (faults svc) = false ->
  filter (Model.matches date (now svc - TTL)) st <> [] ->
  exists r,
    getAllPredictionsForDate svc date teamFilter st = (Ok r, st)
    /\ PredictionsResult.cached r = true.
Proof.
  intros F N. unfold getAllPredictionsForDate, bind. rewrite (find_ok _ _ _ F).
  apply length_positive in N. rewrite N. unfold ret. eauto.
Qed.

Lemma getAllPredictionsForDate_miss (svc : PredictionsService.t) (date : string)
    (teamFilter : option string) (st : Store)
    (R : list TransformedPrediction.t) :
  Model.findFails (faults svc) = false ->
  filter (Model.matches date (now svc - TTL)) st = [] ->
  getPredictions (footballApiService svc) date = Ok R ->
  getAllPredictionsForDate svc date teamFilter st
  = (Ok {| PredictionsResult.predictions :=
             applyTeamFilter teamFilter (transformApiToDto R);
           PredictionsResult.cached := false |},
     if (0 <? List.length R)%nat then snd (replaceAll svc R date st) else st).
Proof.
  intros F N G. unfold getAllPredictionsForDate, bind. rewrite (find_ok _ _ _ F).
  rewrite N. cbn [List.length Nat.ltb Nat.leb]. unfold lift. rewrite G.
  destruct R as [|x R]; cbn [List.length]; cbv beta iota.
  - reflexivity.
  - now rewrite cacheApiPredictions_swallows.
Qed.

(** A failing read fails the query and leaves the collection alone. *)
Lemma query_read_failure (svc : PredictionsService.t) (date : string)
    (teamFilter : option string) (st : Store) :
  Model.findFails (faults svc) = true ->
  getPredictionsForDate svc date teamFilter st = (Throw StoreUnavailable, st)
  /\ getAllPredictionsForDate svc date teamFilter st = (Throw StoreUnavailable, st).
Proof.
  intro F. unfold getPredictionsForDate, getAllPredictionsForDate, bind, Model.find.
  now rewrite F.
Qed.

(** *** The threshold *)

Lemma applyTeamFilter_incl (teamFilter : option string)
    (l : list PredictionResponseDto.t) (p : PredictionResponseDto.t) :
  In p (applyTeamFilter teamFilter l) -> In p l.
Proof.
  unfold applyTeamFilter. destruct (teamFilterGiven teamFilter); [|trivial].
  intro H. now apply filter_In in H.
Qed.

Lemma cached_above_threshold (predictions : list Prediction.t)
    (teamFilter : option string) (p : PredictionResponseDto.t) :
  In p (filterAndTransformPredictions predictions teamFilter) ->
  gt (PredictionResponseDto.homeWinChance p) (Num 50) = true.
Proof.
  unfold filterAndTransformPredictions. intro H.
  apply in_map_iff in H. destruct H as [d [<- H]].
  assert (X : In d (filter (fun p => gt (Prediction.homeWinChance p) (Num 50))
                      predictions)).
  { destruct (teamFilterGiven teamFilter); [|exact H].
    now apply filter_In in H. }
  apply filter_In in X. exact (proj2 X).
Qed.

Lemma fetched_above_threshold (R : list TransformedPrediction.t)
    (teamFilter : option string) (p : PredictionResponseDto.t) :
  In p (applyTeamFilter teamFilter
          (transformApiToDto (filterPredictionsByHomeWinChance R))) ->
  gt (PredictionResponseDto.homeWinChance p) (Num 50) = true.
Proof.
  intro H. apply applyTeamFilter_incl in H.
  unfold transformApiToDto in H. apply in_map_iff in H.
  destruct H as [t [<- H]].
  unfold filterPredictionsByHomeWinChance in H. apply filter_In in H.
  exact (proj2 H).
Qed.

(** C1.  Every record the threshold query returns has a home win chance
    strictly above 50, whether it was served from the cache or fetched; so
    no returned record has a home win chance of exactly 50. *)
Theorem threshold_is_strict (svc : PredictionsService.t) (date : string)
    (teamFilter : option string) (st : Store) (r : PredictionsResult.t)
    (p : PredictionResponseDto.t) :
  fst (getPredictionsForDate svc date teamFilter st) = Ok r ->
  In p (PredictionsResult.predictions r) ->
  gt (PredictionResponseDto.homeWinChance p) (Num 50) = true
  /\ forall q : Q, PredictionResponseDto.homeWinChance p = Num q ->
       (50 < q)%Q /\ ~ (q == 50)%Q.
Proof.
  intros H I.
  assert (G : gt (PredictionResponseDto.homeWinChance p) (Num 50) = true).
  { destruct (Model.findFails (faults svc)) eqn:F.
    - rewrite (proj1 (query_read_failure svc date teamFilter st F)) in H.
      discriminate H.
    - destruct (filter (Model.matches date (now svc - TTL)) st) as [|d c] eqn:C.
      + destruct (getPredictions_total (footballApiService svc) date) as [R G].
        rewrite (getPredictionsForDate_miss svc date teamFilter st R F C G) in H.
        injection H as <-. now apply fetched_above_threshold in I.
      + rewrite getPredictionsForDate_hit in H by (try rewrite C; congruence).
        injection H as <-. now apply cached_above_threshold in I. }
  split; [exact G|].
  intros q E. rewrite E in G. apply gt_Num in G.
  split; [exact G|]. intro X. rewrite X in G. exact (Qlt_irrefl _ G).
Qed.

Lemma threshold_is_strict_witness :
  let svc := Fixtures.service Fixtures.offlineApi Fixtures.noFaults Fixtures.noon in
  let p := documentToDto
             (Fixtures.document "2025-08-14" "Fulham" 64
                (Fixtures.noon - 10 * Fixtures.minute)) in
  fst (getPredictionsForDate svc "2025-08-14" None
         (Fixtures.collection Fixtures.noon))
  = Ok {| PredictionsResult.predictions := [p];
          PredictionsResult.cached := true |}
  /\ gt (PredictionResponseDto.homeWinChance p) (Num 50) = true
  /\ forall q : Q, PredictionResponseDto.homeWinChance p = Num q ->
       (50 < q)%Q /\ ~ (q == 50)%Q.
Proof.
  intros svc p. split; [reflexivity|].
  apply (threshold_is_strict svc "2025-08-14" None
           (Fixtures.collection Fixtures.noon)
           {| PredictionsResult.predictions := [p];
              PredictionsResult.cached := true |} p).
  - reflexivity.
  - left. reflexivity.
Defined.

(** *** The freshness window *)

Lemma matches_iff (date : string) (threshold : Z) (p : Prediction.t) :
  Model.matches date threshold p = true
  <-> Prediction.date p = date /\ threshold <= Prediction.cachedAt p.
Proof.
  unfold Model.matches. rewrite andb_true_iff, String.eqb_eq, Z.leb_le. tauto.
Qed.

(** A query whose read succeeds returns, and tells a hit from a miss by
    whether the fresh set is empty. *)
Lemma cached_flag (svc : PredictionsService.t) (date : string)
    (teamFilter : option string) (st : Store) :
  Model.findFails (faults svc) = false ->
  (exists r, fst (getPredictionsForDate svc date teamFilter st) = Ok r
             /\ (PredictionsResult.cached r = true
                 <-> filter (Model.matches date (now svc - TTL)) st <> []))
  /\ (exists r, fst (getAllPredictionsForDate svc date teamFilter st) = Ok r
                /\ (PredictionsResult.cached r = true
                    <-> filter (Model.matches date (now svc - TTL)) st <> [])).
Proof.
  intro F.
  destruct (filter (Model.matches date (now svc - TTL)) st) as [|d c] eqn:C.
  - destruct (getPredictions_total (footballApiService svc) date) as [R G].
    rewrite (getPredictionsForDate_miss svc date teamFilter st R F C G).
    rewrite (getAllPredictionsForDate_miss svc date teamFilter st R F C G).
    split; eexists; (split; [reflexivity|]); cbn; split; congruence.
  - assert (N : filter (Model.matches date (now svc - TTL)) st <> [])
      by (rewrite C; discriminate).
    rewrite (getPredictionsForDate_hit svc date teamFilter st F N).
    destruct (getAllPredictionsForDate_hit svc date teamFilter st F N) as [r [E T]].
    rewrite E.
    split; eexists; (split; [reflexivity|]); cbn; split; intros _;
      try discriminate; try reflexivity; exact T.
Qed.

(** C2.  The freshness check returns exactly the stored records of the
    requested date whose cachedAt is at or after asOf minus two hours: a
    record written 119 minutes before asOf is returned, one written 121
    minutes before is not; and the query is served from the cache exactly
    when that set is not empty. *)
Theorem fresh_window_decides_cache (svc : PredictionsService.t) (date : string)
    (teamFilter : option string) (st : Store) :
  Model.findFails (faults svc) = false ->
  let asOf := now svc in
  let fresh := filter (Model.matches date (asOf - TTL)) st in
  fst (Model.find (faults svc) date (asOf - TTL) st) = Ok fresh
  /\ (forall p, In p fresh <->
                In p st /\ Prediction.date p = date
                /\ asOf - 2 * 60 * 60 * 1000 <= Prediction.cachedAt p)
  /\ (forall p, In p st -> Prediction.date p = date ->
                Prediction.cachedAt p = asOf - 119 * 60 * 1000 -> In p fresh)
  /\ (forall p, Prediction.cachedAt p = asOf - 121 * 60 * 1000 -> ~ In p fresh)
  /\ (exists r, fst (getPredictionsForDate svc date teamFilter st) = Ok r
                /\ (PredictionsResult.cached r = true <-> fresh <> []))
  /\ (exists r, fst (getAllPredictionsForDate svc date teamFilter st) = Ok r
                /\ (PredictionsResult.cached r = true <-> fresh <> [])).
Proof.
  intros F asOf fresh.
  assert (I : forall p, In p fresh <->
                In p st /\ Prediction.date p = date
                /\ asOf - 2 * 60 * 60 * 1000 <= Prediction.cachedAt p).
  { intro p. unfold fresh. rewrite filter_In, matches_iff. unfold TTL. tauto. }
  split; [unfold asOf; now rewrite find_ok|].
  split; [exact I|].
  split; [intros p Hin Hd Hc; apply I; repeat split; try assumption; lia|].
  split; [intros p Hc Hin; apply I in Hin; lia|].
  exact (cached_flag svc date teamFilter st F).
Qed.

Lemma fresh_window_decides_cache_witness :
  let svc := Fixtures.service Fixtures.offlineApi Fixtures.noFaults Fixtures.noon in
  let st := Fixtures.collection Fixtures.noon in
  fst (Model.find (faults svc) "2025-08-14" (now svc - TTL) st)
  = Ok [ Fixtures.document "2025-08-14" "Arsenal" 50
           (Fixtures.noon - 119 * Fixtures.minute);
         Fixtures.document "2025-08-14" "Fulham" 64
           (Fixtures.noon - 10 * Fixtures.minute) ]
  /\ exists r, fst (getPredictionsForDate svc "2025-08-14" None st) = Ok r
               /\ PredictionsResult.cached r = true.
Proof.
  intros svc st.
  pose proof (fresh_window_decides_cache svc "2025-08-14" None st eq_refl)
    as [E [_ [_ [_ [[r [Q C]] _]]]]].
  split; [exact E|].
  exists r. split; [exact Q|]. apply C. discriminate.
Defined.

(** *** What a query writes *)

Lemma or_str_nonempty (s d : string) : s <> "" -> or_str s d = s.
Proof.
  intro H. unfold or_str. apply truthy_str_nonempty in H. now rewrite H.
Qed.

Lemma toDocument_wellFormed (date : string) (at_ : Z)
    (p : TransformedPrediction.t) :
  wellFormed (TransformedPrediction.homeTeam p)
             (TransformedPrediction.awayTeam p)
             (TransformedPrediction.homeWinChance p) ->
  let d := toDocument date at_ p in
  wellFormed (Prediction.homeTeam d) (Prediction.awayTeam d)
             (Prediction.homeWinChance d).
Proof.
  intros [H [A C]]. cbv zeta. unfold wellFormed. cbn [toDocument
    Prediction.homeTeam Prediction.awayTeam Prediction.homeWinChance].
  rewrite (or_str_nonempty _ _ H), (or_str_nonempty _ _ A).
  unfold or_default. rewrite (gt_zero_truthy _ C). auto.
Qed.

(** After a refresh every document is an old one or one built from R. *)
Lemma replaceAll_store (svc : PredictionsService.t)
    (R : list TransformedPrediction.t) (date : string) (st : Store)
    (d : Prediction.t) :
  In d (snd (replaceAll svc R date st)) ->
  In d st \/ In d (map (toDocument date (writeTime svc)) R).
Proof.
  assert (S : forall x, In x (recordsNotFor date st) -> In x st)
    by (intros x X; unfold recordsNotFor in X; now apply filter_In in X).
  destruct (replaceAll_cases svc R date st) as [[e E]|[[e E]|E]];
    rewrite E; cbn [snd]; intro H.
  - now left.
  - left. now apply S.
  - apply in_app_or in H. destruct H as [H|H]; [left; now apply S|now right].
Qed.

(** The collection a query leaves behind: untouched, or refreshed with the
    fetched records. *)
Lemma query_store (svc : PredictionsService.t) (date : string)
    (teamFilter : option string) (st : Store) :
  let after := fun st' =>
    st' = st
    \/ exists R, getPredictions (footballApiService svc) date = Ok R
                 /\ st' = snd (replaceAll svc R date st) in
  after (snd (getPredictionsForDate svc date teamFilter st))
  /\ after (snd (getAllPredictionsForDate svc date teamFilter st)).
Proof.
  cbv zeta.
  destruct (Model.findFails (faults svc)) eqn:F.
  - destruct (query_read_failure svc date teamFilter st F) as [-> ->].
    split; now left.
  - destruct (filter (Model.matches date (now svc - TTL)) st) as [|x c] eqn:C.
    + destruct (getPredictions_total (footballApiService svc) date) as [R G].
      rewrite (getPredictionsForDate_miss svc date teamFilter st R F C G).
      rewrite (getAllPredictionsForDate_miss svc date teamFilter st R F C G).
      cbn [snd]. destruct (0 <? List.length R)%nat.
      * split; right; exists R; split; auto.
      * split; now left.
    + assert (N : filter (Model.matches date (now svc - TTL)) st <> [])
        by (rewrite C; discriminate).
      rewrite (getPredictionsForDate_hit svc date teamFilter st F N).
      destruct (getAllPredictionsForDate_hit svc date teamFilter st F N)
        as [r [-> _]].
      split; now left.
Qed.

Lemma written_documents_wellFormed (svc : PredictionsService.t) (date : string)
    (st st' : Store) (d : Prediction.t) :
  (st' = st
   \/ exists R, getPredictions (footballApiService svc) date = Ok R
                /\ st' = snd (replaceAll svc R date st)) ->
  In d st' ->
  In d st
  \/ wellFormed (Prediction.homeTeam d) (Prediction.awayTeam d)
                (Prediction.homeWinChance d).
Proof.
  intros [->|[R [G ->]]] H; [now left|].
  apply replaceAll_store in H. destruct H as [H|H]; [now left|right].
  apply in_map_iff in H. destruct H as [p [<- Hp]].
  apply toDocument_wellFormed.
  exact (getPredictions_wellFormed _ _ _ _ G Hp).
Qed.

(** C6.  The normalisation step keeps exactly the transformed matches with
    a non-empty home team, a non-empty away team and a home win chance
    above zero, and drops the others; and every document a query adds to
    the collection, in live mode as in offline mode, meets the same three
    conditions. *)
Theorem normalised_records_are_well_formed :
  (forall (ms : list BetminerMatch.t) (p : TransformedPrediction.t),
     In p (transformBetminerData ms)
     <-> (exists m, transformMatch m = p /\ In m ms)
         /\ wellFormed (TransformedPrediction.homeTeam p)
                       (TransformedPrediction.awayTeam p)
                       (TransformedPrediction.homeWinChance p))
  /\ (forall (svc : PredictionsService.t) (date : string)
             (teamFilter : option string) (st : Store) (d : Prediction.t),
        In d (snd (getPredictionsForDate svc date teamFilter st))
        \/ In d (snd (getAllPredictionsForDate svc date teamFilter st)) ->
        In d st
        \/ wellFormed (Prediction.homeTeam d) (Prediction.awayTeam d)
                      (Prediction.homeWinChance d)).
Proof.
  split.
  - intros ms p. unfold transformBetminerData.
    rewrite filter_In, in_map_iff, isValidPrediction_wellFormed. tauto.
  - intros svc date teamFilter st d H.
    pose proof (query_store svc date teamFilter st) as Q.
    cbv zeta beta in Q. destruct Q as [A B].
    destruct H as [H|H].
    + exact (written_documents_wellFormed _ _ _ _ _ A H).
    + exact (written_documents_wellFormed _ _ _ _ _ B H).
Qed.

Lemma normalised_records_are_well_formed_witness :
  let ms := [Fixtures.favourite; Fixtures.nameless] in
  let svc := Fixtures.service (Fixtures.liveApi (Ok (ArrayOf ms)))
               Fixtures.noFaults Fixtures.noon in
  transformBetminerData ms = [transformMatch Fixtures.favourite]
  /\ wellFormed "Arsenal" "Chelsea" (Num 56)
  /\ forall d, In d (snd (getPredictionsForDate svc "2025-08-14" None [])) ->
       wellFormed (Prediction.homeTeam d) (Prediction.awayTeam d)
                  (Prediction.homeWinChance d).
Proof.
  intros ms svc.
  destruct normalised_records_are_well_formed as [N W].
  split; [reflexivity|]. split.
  - apply (proj1 (N ms (transformMatch Fixtures.favourite))).
    left. reflexivity.
  - intros d H.
    destruct (W svc "2025-08-14" None [] d (or_introl H)) as [[]|X].
    exact X.
Defined.

(** *** A refresh that fails *)

(** C9.  On a cache miss, when the write of the refresh fails, the failure
    is swallowed: the query returns the fetched records that pass the
    filters, with cached = false, exactly what it returns when the write
    succeeds; none of the fetched records is stored. *)
Theorem write_failure_is_swallowed (svc : PredictionsService.t) (date : string)
    (teamFilter : option string) (st : Store)
    (R : list TransformedPrediction.t) (e : error) :
  Model.findFails (faults svc) = false ->
  filter (Model.matches date (now svc - TTL)) st = [] ->
  getPredictions (footballApiService svc) date = Ok R ->
  fst (replaceAll svc R date st) = Throw e ->
  exists r,
    fst (getPredictionsForDate svc date teamFilter st) = Ok r
    /\ PredictionsResult.cached r = false
    /\ PredictionsResult.predictions r
       = applyTeamFilter teamFilter
           (transformApiToDto (filterPredictionsByHomeWinChance R))
    /\ (let st' := snd (getPredictionsForDate svc date teamFilter st) in
        st' = st \/ st' = recordsNotFor date st)
    /\ forall (svc' : PredictionsService.t) (st' : Store),
         footballApiService svc' = footballApiService svc ->
         Model.findFails (faults svc') = false ->
         filter (Model.matches date (now svc' - TTL)) st' = [] ->
         fst (replaceAll svc' R date st') = Ok tt ->
         fst (getPredictionsForDate svc' date teamFilter st') = Ok r.
Proof.
  intros F C G W.
  rewrite (getPredictionsForDate_miss svc date teamFilter st R F C G).
  eexists. split; [reflexivity|]. split; [reflexivity|]. split; [reflexivity|].
  split.
  - cbv zeta. cbn [snd]. destruct (0 <? List.length R)%nat; [|now left].
    destruct (replaceAll_cases svc R date st) as [[x E]|[[x E]|E]];
      rewrite E in *; cbn [fst snd] in *; auto. discriminate W.
  - intros svc' st' A F' C' _. rewrite <- A in G.
    now rewrite (getPredictionsForDate_miss svc' date teamFilter st' R F' C' G).
Qed.

Lemma write_failure_is_swallowed_witness :
  let failing :=
    Fixtures.service Fixtures.offlineApi Fixtures.insertFault Fixtures.noon in
  let working :=
    Fixtures.service Fixtures.offlineApi Fixtures.noFaults Fixtures.noon in
  exists r,
    fst (getPredictionsForDate failing "2025-08-12" None []) = Ok r
    /\ PredictionsResult.cached r = false
    /\ List.length (PredictionsResult.predictions r) = 2%nat
    /\ snd (getPredictionsForDate failing "2025-08-12" None []) = []
    /\ fst (getPredictionsForDate working "2025-08-12" None []) = Ok r
    /\ List.length (snd (getPredictionsForDate working "2025-08-12" None []))
       = 5%nat.
Proof.
  intros failing working.
  destruct (write_failure_is_swallowed failing "2025-08-12" None []
              (getMockPredictions "2025-08-12") StoreUnavailable
              eq_refl eq_refl eq_refl eq_refl)
    as [r [Q [C [P [_ S]]]]].
  exists r. split; [exact Q|]. split; [exact C|].
  split; [rewrite P; reflexivity|]. split; [reflexivity|].
  split; [|reflexivity].
  apply (S working []); reflexivity.
Defined.

(** *** A query served from the cache *)

(** C10.  When the freshness check finds records, neither query operation
    writes: each returns with cached = true and leaves the collection, and
    so the records of every date, exactly as it found them. *)
Theorem cache_hit_writes_nothing (svc : PredictionsService.t) (date : string)
    (teamFilter : option string) (st : Store) :
  Model.findFails (faults svc) = false ->
  filter (Model.matches date (now svc - TTL)) st <> [] ->
  (exists r, getPredictionsForDate svc date teamFilter st = (Ok r, st)
             /\ PredictionsResult.cached r = true)
  /\ (exists r, getAllPredictionsForDate svc date teamFilter st = (Ok r, st)
                /\ PredictionsResult.cached r = true)
  /\ forall d : string,
       recordsFor d (snd (getPredictionsForDate svc date teamFilter st))
       = recordsFor d st
       /\ recordsFor d (snd (getAllPredictionsForDate svc date teamFilter st))
          = recordsFor d st.
Proof.
  intros F N.
  pose proof (getPredictionsForDate_hit svc date teamFilter st F N) as E1.
  destruct (getAllPredictionsForDate_hit svc date teamFilter st F N) as [r [E2 T]].
  split; [eexists; split; [exact E1|reflexivity]|].
  split; [exists r; split; [exact E2|exact T]|].
  intro d. now rewrite E1, E2.
Qed.

Lemma cache_hit_writes_nothing_witness :
  let svc := Fixtures.service Fixtures.offlineApi Fixtures.noFaults Fixtures.noon in
  let st := Fixtures.collection Fixtures.noon in
  snd (getPredictionsForDate svc "2025-08-14" (Some "ful") st) = st
  /\ snd (getAllPredictionsForDate svc "2025-08-14" None st) = st.
Proof.
  intros svc st.
  destruct (cache_hit_writes_nothing svc "2025-08-14" (Some "ful") st eq_refl
              ltac:(discriminate)) as [[r [E _]] _].
  destruct (cache_hit_writes_nothing svc "2025-08-14" None st eq_refl
              ltac:(discriminate)) as [_ [[r' [E' _]] _]].
  split; [now rewrite E|now rewrite E'].
Defined.

(* ================================================================== *)
(** ** More on the normalisation *)




Lemma fromOdds_value (s : string) (v : number) :
  calculateWinChanceFromOdds s = Some v ->
  (exists n : Z, v = Num (inject_Z n) /\ (0 <= n)%Z)
  /\ or_undefined (parseFloat s) = Some (parseFloat s)
  /\ gt (parseFloat s) (Num 0) = true.
Proof.
  unfold calculateWinChanceFromOdds.
  destruct (parseFloat s) as [| | |o] eqn:P; cbn [isNaN le orb];
    try discriminate.
  - intros [= <-]. split; [|split; reflexivity].
    exists 0%Z. split; [reflexivity|lia].
  - destruct (Qle_bool o 0) eqn:E; [discriminate|].
    apply Qle_bool_false in E. intro H.
    rewrite (implied_probability o E) in H. injection H as <-.
    split; [|split].
    + eexists. split; [reflexivity|]. now apply percent_nonneg.
    + unfold or_undefined.
      assert (T : truthy (Num o) = true).
      { apply truthy_Num. intro X. rewrite X in E. exact (Qlt_irrefl _ E). }
      now rewrite T.
    + now apply gt_Num.
Qed.





(** X3.  Whenever a chance can be derived from an odds text, the record
    also carries those odds: the odds field is the parsed text, and it is
    above zero.  This holds for the home, the away and the draw field. *)
Theorem derived_chance_comes_with_odds (m : BetminerMatch.t) :
  let o := BetminerMatch.odds m in
  let p := transformMatch m in
  (forall v, calculateWinChanceFromOdds (Odds.home_win_odds o) = Some v ->
     TransformedPrediction.homeWinOdds p = Some (parseFloat (Odds.home_win_odds o))
     /\ gt (parseFloat (Odds.home_win_odds o)) (Num 0) = true)
  /\ (forall v, calculateWinChanceFromOdds (Odds.away_win_odds o) = Some v ->
        TransformedPrediction.awayWinOdds p = Some (parseFloat (Odds.away_win_odds o))
        /\ gt (parseFloat (Odds.away_win_odds o)) (Num 0) = true)
  /\ (forall v, calculateWinChanceFromOdds (Odds.draw_odds o) = Some v ->
        TransformedPrediction.drawOdds p = Some (parseFloat (Odds.draw_odds o))
        /\ gt (parseFloat (Odds.draw_odds o)) (Num 0) = true).
Proof.
  cbv zeta.
  cbn [transformMatch TransformedPrediction.homeWinOdds
       TransformedPrediction.awayWinOdds TransformedPrediction.drawOdds].
  repeat split; try exact (proj1 (proj2 (fromOdds_value _ _ H)));
    exact (proj2 (proj2 (fromOdds_value _ _ H))).
Qed.

Lemma derived_chance_comes_with_odds_witness :
  TransformedPrediction.homeWinOdds (transformMatch Fixtures.favourite)
  = Some (Num (9 # 5))
  /\ TransformedPrediction.awayWinOdds (transformMatch Fixtures.favourite)
     = Some (Num (9 # 2)).
Proof.
  pose proof (derived_chance_comes_with_odds Fixtures.favourite) as [H [A _]].
  split.
  - exact (proj1 (H (Num 56) eq_refl)).
  - exact (proj1 (A (Num 22) eq_refl)).
Defined.

(** *** The date and the time of a match *)

Lemma split_nonempty (sep : ascii) (s : string) : split sep s <> [].
Proof.
  destruct s as [|c s]; [discriminate|].
  cbn [split]. destruct (Ascii.eqb c sep); [discriminate|].
  destruct (split sep s); discriminate.
Qed.


(** The first part of a text that begins with a block free of separators. *)
Lemma split_after_block (sep : ascii) (a b : string) :
  mentions sep a = false ->
  split sep (a ++ b)
  = (a ++ hd "" (split sep b)) :: tl (split sep b).
Proof.
  induction a as [|c a IH]; intro H.
  - cbn [append]. pose proof (split_nonempty sep b).
    destruct (split sep b); [contradiction|reflexivity].
  - cbn [mentions] in H. apply orb_false_iff in H. destruct H as [E M].
    cbn [append split]. rewrite E, (IH M). reflexivity.
Qed.

Lemma split_at_separator (sep : ascii) (s : string) :
  split sep (String sep s) = "" :: split sep s.
Proof. cbn [split]. now rewrite Ascii.eqb_refl. Qed.

Lemma append_empty (s : string) : s ++ "" = s.
Proof. induction s as [|c s IH]; [reflexivity|]. cbn [append]. now rewrite IH. Qed.

Lemma substring_of_block (a b : string) :
  String.substring 0 (String.length a) (a ++ b) = a.
Proof.
  induction a as [|c a IH].
  - destruct b; reflexivity.
  - cbn [String.length append String.substring]. now rewrite IH.
Qed.

Lemma split_date_time (d t : string) :
  mentions " " d = false ->
  split " " (d ++ " " ++ t) = d :: split " " t.
Proof.
  intro H. rewrite (split_after_block " " d (" " ++ t) H).
  change (" " ++ t) with (String " " t).
  rewrite split_at_separator. cbn [hd tl]. now rewrite append_empty.
Qed.

(** X4.  For an upstream date-time text "date, one space, HH:MM, rest",
    where neither the date nor the five characters of the time hold a
    space, the normalised record has exactly that date and that time. *)
Theorem date_and_time_are_split (m : BetminerMatch.t) (d hm rest : string) :
  Details.date (BetminerMatch.details m) = d ++ " " ++ hm ++ rest ->
  mentions " " d = false ->
  mentions " " hm = false ->
  String.length hm = 5%nat ->
  TransformedPrediction.date (transformMatch m) = d
  /\ TransformedPrediction.matchTime (transformMatch m) = hm.
Proof.
  intros E Hd Hhm L.
  cbn [transformMatch TransformedPrediction.date TransformedPrediction.matchTime].
  unfold extractTimeFromDate. rewrite E, (split_date_time d (hm ++ rest) Hd).
  split; [reflexivity|].
  pose proof (split_nonempty " " (hm ++ rest)) as N.
  rewrite (split_after_block " " hm rest Hhm) in *.
  cbn [List.length Nat.leb nth]. unfold substring0. rewrite <- L.
  apply substring_of_block.
Qed.

Lemma date_and_time_are_split_witness :
  TransformedPrediction.date (transformMatch Fixtures.favourite) = "2025-08-14"
  /\ TransformedPrediction.matchTime (transformMatch Fixtures.favourite) = "18:30".
Proof.
  apply (date_and_time_are_split Fixtures.favourite "2025-08-14" "18:30" ":00");
    reflexivity.
Defined.



(* ================================================================== *)
(** ** More on the two query operations *)

Lemma recordsFor_twice (date : string) (st : Store) :
  recordsFor date (recordsFor date st) = recordsFor date st.
Proof.
  unfold recordsFor.
  induction st as [|p st IH]; [reflexivity|].
  simpl. destruct (String.eqb (Prediction.date p) date) eqn:E; simpl.
  - rewrite E. now rewrite IH.
  - exact IH.
Qed.

(** Where a refresh can leave the collection. *)
Lemma replaceAll_outcomes (svc : PredictionsService.t)
    (R : list TransformedPrediction.t) (date : string) (st : Store) :
  let st' := snd (replaceAll svc R date st) in
  st' = st
  \/ st' = recordsNotFor date st
  \/ st' = (recordsNotFor date st ++ map (toDocument date (writeTime svc)) R)%list.
Proof.
  cbv zeta.
  destruct (replaceAll_cases svc R date st) as [[e E]|[[e E]|E]];
    rewrite E; cbn [snd]; auto.
Qed.

(** X6.  A query only ever touches the records of the date it asks for:
    whatever the upstream answers and whichever store operation fails, the
    records of every other date are afterwards what they were. *)
Theorem query_leaves_other_dates (svc : PredictionsService.t) (date : string)
    (teamFilter : option string) (st : Store) :
  recordsNotFor date (snd (getPredictionsForDate svc date teamFilter st))
  = recordsNotFor date st
  /\ recordsNotFor date (snd (getAllPredictionsForDate svc date teamFilter st))
     = recordsNotFor date st.
Proof.
  assert (K : forall st',
             (st' = st
              \/ exists R, getPredictions (footballApiService svc) date = Ok R
                           /\ st' = snd (replaceAll svc R date st)) ->
             recordsNotFor date st' = recordsNotFor date st).
  { intros st' [->|[R [_ ->]]]; [reflexivity|].
    destruct (replaceAll_outcomes svc R date st) as [E|[E|E]]; rewrite E.
    - reflexivity.
    - apply recordsNotFor_idem.
    - rewrite recordsNotFor_app, recordsNotFor_idem, recordsNotFor_documents.
      apply app_nil_r. }
  pose proof (query_store svc date teamFilter st) as Q.
  cbv zeta beta in Q. destruct Q as [A B].
  split; apply K; assumption.
Qed.

(** X7.  A query never leaves a mix of generations: afterwards the
    collection holds for the requested date either what it held before, or
    nothing, or exactly the documents built from the fetched records. *)
Theorem query_never_mixes_generations (svc : PredictionsService.t)
    (date : string) (teamFilter : option string) (st : Store) :
  let outcome := fun st' =>
    recordsFor date st' = recordsFor date st
    \/ recordsFor date st' = []
    \/ exists R, getPredictions (footballApiService svc) date = Ok R
                 /\ recordsFor date st'
                    = map (toDocument date (writeTime svc)) R in
  outcome (snd (getPredictionsForDate svc date teamFilter st))
  /\ outcome (snd (getAllPredictionsForDate svc date teamFilter st)).
Proof.
  cbv zeta.
  assert (K : forall st',
             (st' = st
              \/ exists R, getPredictions (footballApiService svc) date = Ok R
                           /\ st' = snd (replaceAll svc R date st)) ->
             recordsFor date st' = recordsFor date st
             \/ recordsFor date st' = []
             \/ exists R, getPredictions (footballApiService svc) date = Ok R
                          /\ recordsFor date st'
                             = map (toDocument date (writeTime svc)) R).
  { intros st' [->|[R [G ->]]]; [now left|].
    destruct (replaceAll_outcomes svc R date st) as [E|[E|E]]; rewrite E.
    - now left.
    - right; left. apply recordsFor_recordsNotFor.
    - right; right. exists R. split; [exact G|].
      now rewrite recordsFor_app, recordsFor_recordsNotFor, recordsFor_documents. }
  pose proof (query_store svc date teamFilter st) as Q.
  cbv zeta beta in Q. destruct Q as [A B].
  split; apply K; assumption.
Qed.

(** X8.  An empty answer is no failure: in live mode, when the upstream
    returns an array from which normalisation keeps nothing (the empty
    array for one), a query that misses the cache returns no record with
    cached = false and writes nothing, so stale records of that date stay
    in the collection. *)
Theorem empty_fetch_writes_nothing (svc : PredictionsService.t) (date : string)
    (teamFilter : option string) (st : Store) (ms : list BetminerMatch.t) :
  Model.findFails (faults svc) = false ->
  filter (Model.matches date (now svc - TTL)) st = [] ->
  mockMode (footballApiService svc) = false ->
  httpGet (footballApiService svc) (requestUrl date) = Ok (ArrayOf ms) ->
  transformBetminerData ms = [] ->
  getPredictionsForDate svc date teamFilter st
  = (Ok {| PredictionsResult.predictions := [];
           PredictionsResult.cached := false |}, st)
  /\ getAllPredictionsForDate svc date teamFilter st
     = (Ok {| PredictionsResult.predictions := [];
              PredictionsResult.cached := false |}, st).
Proof.
  intros F C Live H T.
  assert (G : getPredictions (footballApiService svc) date = Ok []).
  { unfold getPredictions, getBetminerPredictions, exc_catch, exc_bind.
    now rewrite Live, H, T. }
  rewrite (getPredictionsForDate_miss svc date teamFilter st [] F C G).
  rewrite (getAllPredictionsForDate_miss svc date teamFilter st [] F C G).
  unfold applyTeamFilter. cbn.
  destruct (teamFilterGiven teamFilter); split; reflexivity.
Qed.

Lemma empty_fetch_writes_nothing_witness :
  let svc := Fixtures.service (Fixtures.liveApi (Ok (ArrayOf [Fixtures.nameless])))
               Fixtures.noFaults Fixtures.noon in
  let st := [Fixtures.document "2025-08-14" "Everton" 80
               (Fixtures.noon - 121 * Fixtures.minute)] in
  getPredictionsForDate svc "2025-08-14" None st
  = (Ok {| PredictionsResult.predictions := [];
           PredictionsResult.cached := false |}, st).
Proof.
  intros svc st.
  apply (proj1 (empty_fetch_writes_nothing svc "2025-08-14" None st
                  [Fixtures.nameless] eq_refl eq_refl eq_refl eq_refl eq_refl)).
Defined.

(** *** Asking again *)







(** *** The two filters *)

Lemma filter_map_swap {A B} (f : B -> bool) (g : A -> B) (l : list A) :
  filter f (map g l) = map g (filter (fun x => f (g x)) l).
Proof.
  induction l as [|x l IH]; [reflexivity|].
  cbn [map filter]. destruct (f (g x)); cbn [map]; now rewrite IH.
Qed.

Lemma filter_filter_swap {A} (f g : A -> bool) (l : list A) :
  filter f (filter g l) = filter g (filter f l).
Proof.
  induction l as [|x l IH]; [reflexivity|].
  cbn [filter]. destruct (f x) eqn:Ef, (g x) eqn:Eg; cbn [filter];
    rewrite ?Ef, ?Eg, IH; reflexivity.
Qed.

(** The all-records query, served from the cache. *)
Lemma getAllPredictionsForDate_hit_eq (svc : PredictionsService.t)
    (date : string) (teamFilter : option string) (st : Store) :
  Model.findFails (faults svc) = false ->
  filter (Model.matches date (now svc - TTL)) st <> [] ->
  getAllPredictionsForDate svc date teamFilter st
  = (Ok {| PredictionsResult.predictions :=
             applyTeamFilter teamFilter
               (map documentToDto
                    (filter (Model.matches date (now svc - TTL)) st));
           PredictionsResult.cached := true |}, st).
Proof.
  intros F N. unfold getAllPredictionsForDate, bind. rewrite (find_ok _ _ _ F).
  apply length_positive in N. rewrite N. unfold ret, applyTeamFilter.
  destruct (teamFilterGiven teamFilter) as [f|]; [|reflexivity].
  now rewrite filter_map_swap.
Qed.

Lemma cached_threshold_answer (c : list Prediction.t)
    (teamFilter : option string) :
  filterAndTransformPredictions c teamFilter
  = filter (fun p => gt (PredictionResponseDto.homeWinChance p) (Num 50))
           (applyTeamFilter teamFilter (map documentToDto c)).
Proof.
  unfold filterAndTransformPredictions, applyTeamFilter.
  destruct (teamFilterGiven teamFilter) as [f|].
  - rewrite filter_filter_swap, !filter_map_swap. reflexivity.
  - now rewrite filter_map_swap.
Qed.

Lemma fetched_threshold_answer (R : list TransformedPrediction.t)
    (teamFilter : option string) :
  applyTeamFilter teamFilter
    (transformApiToDto (filterPredictionsByHomeWinChance R))
  = filter (fun p => gt (PredictionResponseDto.homeWinChance p) (Num 50))
           (applyTeamFilter teamFilter (transformApiToDto R)).
Proof.
  unfold applyTeamFilter, transformApiToDto, filterPredictionsByHomeWinChance.
  destruct (teamFilterGiven teamFilter) as [f|].
  - rewrite filter_filter_swap, !filter_map_swap. reflexivity.
  - now rewrite filter_map_swap.
Qed.

(** X10.  From the same collection and the same upstream, the threshold
    query returns exactly those records of the all-records query whose home
    win chance is above 50, in the same order and with the same cached
    flag, and the two leave the same collection behind. *)
Theorem threshold_query_filters_all_query (svc : PredictionsService.t)
    (date : string) (teamFilter : option string) (st : Store) :
  Model.findFails (faults svc) = false ->
  exists r rAll,
    fst (getPredictionsForDate svc date teamFilter st) = Ok r
    /\ fst (getAllPredictionsForDate svc date teamFilter st) = Ok rAll
    /\ PredictionsResult.predictions r
       = filter (fun p => gt (PredictionResponseDto.homeWinChance p) (Num 50))
                (PredictionsResult.predictions rAll)
    /\ PredictionsResult.cached r = PredictionsResult.cached rAll
    /\ snd (getPredictionsForDate svc date teamFilter st)
       = snd (getAllPredictionsForDate svc date teamFilter st).
Proof.
  intro F.
  destruct (filter (Model.matches date (now svc - TTL)) st) as [|d c] eqn:C.
  - destruct (getPredictions_total (footballApiService svc) date) as [R G].
    rewrite (getPredictionsForDate_miss svc date teamFilter st R F C G).
    rewrite (getAllPredictionsForDate_miss svc date teamFilter st R F C G).
    do 2 eexists. split; [reflexivity|]. split; [reflexivity|].
    split; [apply fetched_threshold_answer|]. split; reflexivity.
  - assert (N : filter (Model.matches date (now svc - TTL)) st <> [])
      by (rewrite C; discriminate).
    rewrite (getPredictionsForDate_hit svc date teamFilter st F N).
    rewrite (getAllPredictionsForDate_hit_eq svc date teamFilter st F N).
    do 2 eexists. split; [reflexivity|]. split; [reflexivity|].
    split; [apply cached_threshold_answer|]. split; reflexivity.
Qed.

Lemma threshold_query_filters_all_query_witness :
  let svc := Fixtures.service Fixtures.offlineApi Fixtures.noFaults Fixtures.noon in
  let st := Fixtures.collection Fixtures.noon in
  exists r rAll,
    fst (getPredictionsForDate svc "2025-08-14" None st) = Ok r
    /\ fst (getAllPredictionsForDate svc "2025-08-14" None st) = Ok rAll
    /\ PredictionsResult.predictions r
       = filter (fun p => gt (PredictionResponseDto.homeWinChance p) (Num 50))
                (PredictionsResult.predictions rAll).
Proof.
  intros svc st.
  destruct (threshold_query_filters_all_query svc "2025-08-14" None st eq_refl)
    as [r [rAll [Q [QA [P _]]]]].
  exists r, rAll. auto.
Defined.

(** *** The team filter *)















(* ================================================================== *)
(** ** The controller *)

Import PredictionsController.

Lemma dateRegex_shaped (date : string) :
  dateRegex date = true <-> dateShaped date.
Proof.
  unfold dateRegex, dateShaped. split.
  - intro H.
    destruct date as [|c0 [|c1 [|c2 [|c3 [|c4 [|c5 [|c6 [|c7 [|c8 [|c9 [|c10 r]]]]]]]]]]];
      try discriminate H.
    cbn in H. rewrite !andb_true_iff in H.
    destruct H as [[[[[D0 [D1 [D2 [D3 _]]]] E4] [D5 [D6 _]]] E7] [D8 [D9 _]]].
    destruct (Ascii.eqb_spec c4 "-") as [->|]; [|discriminate E4].
    destruct (Ascii.eqb_spec c7 "-") as [->|]; [|discriminate E7].
    exists (String c0 (String c1 (String c2 (String c3 "")))),
           (String c5 (String c6 "")), (String c8 (String c9 "")).
    cbn. rewrite D0, D1, D2, D3, D5, D6, D8, D9. repeat split; reflexivity.
  - intros [y [m [d [-> [Ly [Lm [Ld [Dy [Dm Dd]]]]]]]]].
    destruct y as [|c0 [|c1 [|c2 [|c3 [|c4 y]]]]]; try discriminate Ly.
    destruct m as [|c5 [|c6 [|c7 m]]]; try discriminate Lm.
    destruct d as [|c8 [|c9 [|c10 d]]]; try discriminate Ld.
    cbn in *. rewrite !andb_true_iff in *.
    destruct Dy as [D0 [D1 [D2 [D3 _]]]]. destruct Dm as [D5 [D6 _]].
    destruct Dd as [D8 [D9 _]].
    rewrite D0, D1, D2, D3, D5, D6, D8, D9. repeat split; reflexivity.
Qed.

Lemma isValidDateFormat_iff (ctl : PredictionsController.t) (date : string) :
  isValidDateFormat ctl date = true
  <-> dateShaped date /\ calendarAgrees ctl date = true.
Proof.
  unfold isValidDateFormat. rewrite <- dateRegex_shaped.
  destruct (dateRegex date); cbn [negb]; split.
  - auto.
  - tauto.
  - discriminate.
  - intros [H _]. discriminate H.
Qed.



Lemma checkDate_rejects (ctl : PredictionsController.t) (date : option string) :
  date = None \/ date = Some ""
  \/ (exists d, date = Some d /\ isValidDateFormat ctl d = false) ->
  exists message, checkDate ctl date = inr (HttpException 400 message).
Proof.
  unfold checkDate.
  intros [->|[->|[d [-> V]]]]; try (eexists; reflexivity).
  destruct (negb (truthy_str d)); [eexists; reflexivity|].
  rewrite V. eexists; reflexivity.
Qed.

(** X14.  A request without a date, with an empty date or with a date the
    check refuses is answered by a 400 from each of the three handlers, and
    the collection is not touched. *)
Theorem bad_date_is_rejected_early (ctl : PredictionsController.t)
    (date teamFilter : option string) (st : Store) :
  date = None \/ date = Some ""
  \/ (exists d, date = Some d /\ isValidDateFormat ctl d = false) ->
  exists message,
    getPredictions ctl date teamFilter st = (inr (HttpException 400 message), st)
    /\ getAllPredictions ctl date teamFilter st
       = (inr (HttpException 400 message), st)
    /\ getPredictionStats ctl date st = (inr (HttpException 400 message), st).
Proof.
  intro H. destruct (checkDate_rejects ctl date H) as [message E].
  exists message.
  unfold getPredictions, getAllPredictions, getPredictionStats, handle.
  rewrite E. repeat split; reflexivity.
Qed.

Lemma bad_date_is_rejected_early_witness :
  let ctl := MoreFixtures.controller
               (Fixtures.service Fixtures.offlineApi Fixtures.noFaults Fixtures.noon) in
  exists message,
    getPredictions ctl (Some "14/08/2025") None [] 
    = (inr (HttpException 400 message), [])
    /\ getAllPredictions ctl (Some "14/08/2025") None []
       = (inr (HttpException 400 message), [])
    /\ getPredictionStats ctl (Some "14/08/2025") []
       = (inr (HttpException 400 message), []).
Proof.
  intro ctl.
  apply (bad_date_is_rejected_early ctl (Some "14/08/2025") None []).
  right. right. exists "14/08/2025". split; reflexivity.
Defined.

Lemma checkDate_accepts (ctl : PredictionsController.t) (d : string) :
  isValidDateFormat ctl d = true -> checkDate ctl (Some d) = inl d.
Proof.
  intro V. unfold checkDate. rewrite V.
  assert (T : truthy_str d = true).
  { apply isValidDateFormat_iff in V. destruct V as [[y [m [x [-> [Ly _]]]]] _].
    destruct y; [discriminate Ly|reflexivity]. }
  now rewrite T.
Qed.

Lemma checkDate_cases (ctl : PredictionsController.t) (date : option string) :
  (exists message, checkDate ctl date = inr (HttpException 400 message))
  \/ exists d, date = Some d /\ isValidDateFormat ctl d = true
               /\ checkDate ctl date = inl d.
Proof.
  destruct date as [d|]; [|left; eexists; reflexivity].
  destruct (isValidDateFormat ctl d) eqn:V.
  - right. exists d. split; [reflexivity|]. split; [exact V|].
    now apply checkDate_accepts.
  - left. apply checkDate_rejects. right. right. eauto.
Qed.

(** X15.  Whatever happens inside, a handler throws nothing but an
    HttpException with status 400 or 500: a failure of the service never
    reaches the caller as it is. *)
Theorem handlers_throw_only_400_or_500 (ctl : PredictionsController.t)
    (date teamFilter : option string) (st : Store) (x : thrown) :
  fst (getPredictions ctl date teamFilter st) = inr x
  \/ fst (getAllPredictions ctl date teamFilter st) = inr x
  \/ fst (getPredictionStats ctl date st) = inr x ->
  exists message,
    x = HttpException 400 message \/ x = HttpException 500 message.
Proof.
  unfold getPredictions, getAllPredictions, getPredictionStats, handle, await.
  destruct (checkDate_cases ctl date) as [[message E]|[d [-> [V E]]]]; rewrite E.
  - cbn. intros [H|[H|H]]; injection H as <-; eauto.
  - intros [H|[H|H]].
    + destruct (getPredictionsForDate _ d teamFilter st) as [[r|e] st'];
        cbn in H; [discriminate|]. injection H as <-. eauto.
    + destruct (getAllPredictionsForDate _ d teamFilter st) as [[r|e] st'];
        cbn in H; [discriminate|]. injection H as <-. eauto.
    + destruct (getAllPredictionsForDate _ d None st) as [[r|e] st'];
        cbn in H; [discriminate|]. injection H as <-. eauto.
Qed.

Lemma handlers_throw_only_400_or_500_witness :
  let broken := {| Model.findFails := true;
                   Model.deleteManyFails := false;
                   Model.insertManyFails := false |} in
  let ctl := MoreFixtures.controller
               (Fixtures.service Fixtures.offlineApi broken Fixtures.noon) in
  fst (getPredictions ctl (Some "2025-08-14") None [])
  = inr (HttpException 500 "Failed to retrieve predictions")
  /\ exists message,
       HttpException 500 "Failed to retrieve predictions"
       = HttpException 400 message
       \/ HttpException 500 "Failed to retrieve predictions"
          = HttpException 500 message.
Proof.
  intros broken ctl. split; [reflexivity|].
  apply (handlers_throw_only_400_or_500 ctl (Some "2025-08-14") None []).
  left. reflexivity.
Defined.

(** X16.  For a date that passes the check, a handler fails, with a 500,
    exactly when the read of the collection fails; otherwise the
    predictions handler replies with the records of the service, their
    number as count, the cached flag of the service, the date as asked and
    the team filter only when one was given and is not empty. *)
Theorem valid_request_is_answered (ctl : PredictionsController.t) (d : string)
    (teamFilter : option string) (st : Store) :
  isValidDateFormat ctl d = true ->
  let svc := predictionsService ctl in
  (Model.findFails (faults svc) = true ->
   getPredictions ctl (Some d) teamFilter st
   = (inr (HttpException 500 "Failed to retrieve predictions"), st)
   /\ getAllPredictions ctl (Some d) teamFilter st
      = (inr (HttpException 500 "Failed to retrieve all predictions"), st)
   /\ getPredictionStats ctl (Some d) st
      = (inr (HttpException 500 "Failed to retrieve prediction statistics"), st))
  /\ (Model.findFails (faults svc) = false ->
      exists result st',
        getPredictionsForDate svc d teamFilter st = (Ok result, st')
        /\ getPredictions ctl (Some d) teamFilter st
           = (inl {| data := PredictionsResult.predictions result;
                     replyMeta :=
                       {| date := d;
                          count := List.length (PredictionsResult.predictions result);
                          cached := PredictionsResult.cached result;
                          filter := teamFilterGiven teamFilter |} |}, st')).
Proof.
  intros V svc. subst svc.
  unfold getPredictions, getAllPredictions, getPredictionStats, handle, await.
  rewrite (checkDate_accepts ctl d V). split; intro F.
  - destruct (query_read_failure (predictionsService ctl) d teamFilter st F)
      as [-> ->].
    destruct (query_read_failure (predictionsService ctl) d None st F)
      as [_ ->].
    repeat split; reflexivity.
  - destruct (cached_flag (predictionsService ctl) d teamFilter st F)
      as [[r [Q _]] _].
    destruct (getPredictionsForDate (predictionsService ctl) d teamFilter st)
      as [x st'] eqn:E. cbn [fst] in Q. subst x.
    exists r, st'. split; reflexivity.
Qed.

Lemma valid_request_is_answered_witness :
  let ctl := MoreFixtures.controller
               (Fixtures.service Fixtures.offlineApi Fixtures.noFaults Fixtures.noon) in
  exists r st',
    getPredictions ctl (Some "2025-08-14") (Some "") (Fixtures.collection Fixtures.noon)
    = (inl r, st')
    /\ count (replyMeta r) = 1%nat
    /\ cached (replyMeta r) = true
    /\ filter (replyMeta r) = None.
Proof.
  intro ctl.
  destruct (valid_request_is_answered ctl "2025-08-14" (Some "")
              (Fixtures.collection Fixtures.noon) eq_refl) as [_ H].
  destruct (H eq_refl) as [result [st' [Q E]]].
  rewrite E. do 2 eexists. split; [reflexivity|].
  change (getPredictionsForDate (predictionsService ctl) "2025-08-14" (Some "")
            (Fixtures.collection Fixtures.noon))
    with (Ok {| PredictionsResult.predictions :=
                  [documentToDto
                     (Fixtures.document "2025-08-14" "Fulham" 64
                        (Fixtures.noon - 10 * Fixtures.minute))];
                PredictionsResult.cached := true |},
          Fixtures.collection Fixtures.noon) in Q.
  injection Q as <- <-. repeat split; reflexivity.
Defined.

(* ================================================================== *)
(** ** The statistics *)



(** *** The breakdowns *)

Lemma get_set_same (key : string) (v : Breakdown.tally) (o : Breakdown.t) :
  Breakdown.get key (Breakdown.set key v o) = Some v.
Proof.
  induction o as [|[k w] o IH]; cbn [Breakdown.set Breakdown.get].
  - now rewrite String.eqb_refl.
  - destruct (String.eqb k key) eqn:E; cbn [Breakdown.get]; rewrite E; auto.
Qed.

Lemma get_set_other (key c : string) (v : Breakdown.tally) (o : Breakdown.t) :
  key <> c ->
  Breakdown.get c (Breakdown.set key v o) = Breakdown.get c o.
Proof.
  intro N. induction o as [|[k w] o IH]; cbn [Breakdown.set Breakdown.get].
  - apply String.eqb_neq in N. now rewrite N.
  - destruct (String.eqb k key) eqn:E; cbn [Breakdown.get].
    + apply String.eqb_eq in E. subst k.
      apply String.eqb_neq in N. now rewrite N.
    + destruct (String.eqb k c); auto.
Qed.

(** The entry of a name with [n] occurrences so far. *)
Lemma bump_other (key c : string) (o : Breakdown.t) :
  key <> c -> Breakdown.get c (Breakdown.bump key o) = Breakdown.get c o.
Proof.
  intro N. unfold Breakdown.bump.
  destruct (String.eqb key "__proto__"); [reflexivity|].
  destruct (Breakdown.get key o) as [[n|]|]; now apply get_set_other.
Qed.

Lemma inherited_proto (c : string) :
  Breakdown.inherited c = false -> String.eqb c "__proto__" = false.
Proof.
  unfold Breakdown.inherited. cbn [existsb]. rewrite !orb_false_iff. tauto.
Qed.

Lemma bump_same (c : string) (o : Breakdown.t) :
  Breakdown.inherited c = false ->
  Breakdown.get c (Breakdown.bump c o)
  = match Breakdown.get c o with
    | Some (Breakdown.Count n) => Some (Breakdown.Count (n + 1))
    | Some Breakdown.Text => Some Breakdown.Text
    | None => Some (Breakdown.Count 1)
    end.
Proof.
  intro I. unfold Breakdown.bump. rewrite (inherited_proto c I), I.
  destruct (Breakdown.get c o) as [[n|]|]; apply get_set_same.
Qed.

Lemma tally_fold {A} (c : string) (hits : A -> bool)
    (step : Breakdown.t -> A -> Breakdown.t) :
  Breakdown.inherited c = false ->
  (forall o p, hits p = true -> step o p = Breakdown.bump c o) ->
  (forall o p, hits p = false ->
               Breakdown.get c (step o p) = Breakdown.get c o) ->
  forall (l : list A) (o : Breakdown.t) (n : Z),
    0 <= n -> Breakdown.get c o = tallyOf n ->
    Breakdown.get c (fold_left step l o) = tallyOf (n + howMany hits l).
Proof.
  intros I Hit Miss. induction l as [|p l IH]; intros o n N G.
  - cbn [fold_left]. unfold howMany. cbn. now rewrite Z.add_0_r.
  - cbn [fold_left]. unfold howMany. cbn [List.filter].
    destruct (hits p) eqn:E.
    + rewrite (IH (step o p) (n + 1)).
      * unfold howMany. f_equal. cbn [List.length]. lia.
      * lia.
      * rewrite (Hit o p E), (bump_same c o I), G. unfold tallyOf.
        destruct (n =? 0) eqn:Z0.
        -- apply Z.eqb_eq in Z0. subst n. reflexivity.
        -- assert (X : (n + 1 =? 0) = false) by (apply Z.eqb_neq; lia).
           now rewrite X.
    + rewrite (IH (step o p) n N).
      * reflexivity.
      * now rewrite (Miss o p E).
Qed.

(** X18.  For every name that is not a property all objects inherit, the
    competition breakdown maps the name to the number of records of that
    competition, and has no entry for it when there is none; the country
    breakdown does the same for every such non-empty country name, records
    without a country or with an empty one being left out. *)
Theorem breakdowns_count_by_name (predictions : list PredictionResponseDto.t)
    (c : string) :
  Breakdown.inherited c = false ->
  let s := calculatePredictionStats predictions in
  Breakdown.get c (PredictionStats.competitionBreakdown s)
  = tallyOf (howMany (fun p => String.eqb (PredictionResponseDto.competition p) c)
                     predictions)
  /\ (c <> "" ->
      Breakdown.get c (PredictionStats.countryBreakdown s)
      = tallyOf (howMany (fun p => match PredictionResponseDto.country p with
                                   | Some k => String.eqb k c
                                   | None => false
                                   end) predictions)).
Proof.
  intros I s. subst s.
  cbn [calculatePredictionStats PredictionStats.competitionBreakdown
       PredictionStats.countryBreakdown].
  split.
  - apply (tally_fold c
             (fun p => String.eqb (PredictionResponseDto.competition p) c)
             (fun o p => Breakdown.bump (PredictionResponseDto.competition p) o)
             I) with (n := 0); try reflexivity; try lia.
    + intros o p E. apply String.eqb_eq in E. now rewrite E.
    + intros o p E. apply String.eqb_neq in E. now apply bump_other.
  - intro N.
    apply (tally_fold c
             (fun p => match PredictionResponseDto.country p with
                       | Some k => String.eqb k c
                       | None => false
                       end)
             (fun o p => match PredictionResponseDto.country p with
                         | Some k => if truthy_str k then Breakdown.bump k o else o
                         | None => o
                         end)
             I) with (n := 0); try reflexivity; try lia.
    + intros o p E. destruct (PredictionResponseDto.country p) as [k|];
        [|discriminate]. apply String.eqb_eq in E. subst k.
      apply truthy_str_nonempty in N. now rewrite N.
    + intros o p E. destruct (PredictionResponseDto.country p) as [k|];
        [|reflexivity].
      destruct (truthy_str k); [|reflexivity].
      apply String.eqb_neq in E. now apply bump_other.
Qed.

Lemma breakdowns_count_by_name_witness :
  let s := calculatePredictionStats MoreFixtures.fiveRecords in
  Breakdown.get "Liga MX" (PredictionStats.competitionBreakdown s)
  = Some (Breakdown.Count 2)
  /\ Breakdown.get "Colombia" (PredictionStats.countryBreakdown s)
     = Some (Breakdown.Count 2)
  /\ Breakdown.get "Peru" (PredictionStats.countryBreakdown s) = None.
Proof.
  intro s.
  destruct (breakdowns_count_by_name MoreFixtures.fiveRecords "Liga MX" eq_refl)
    as [A _].
  destruct (breakdowns_count_by_name MoreFixtures.fiveRecords "Colombia" eq_refl)
    as [_ B].
  destruct (breakdowns_count_by_name MoreFixtures.fiveRecords "Peru" eq_refl)
    as [_ C].
  split; [exact A|]. split; [apply B; discriminate|apply C; discriminate].
Defined.

(** *** Averages *)








(** *** The range of the odds *)







(** *** The statistics handler *)

(** X21.  The statistics handler works on the all-records query without a
    team filter: on a cache hit the statistics are those of every fresh
    record of the date, whatever its home win chance, and nothing is
    written; on a miss they are those of every fetched record, and the
    collection is refreshed as by a query. *)
Theorem stats_cover_every_record (ctl : PredictionsController.t) (d : string)
    (st : Store) :
  isValidDateFormat ctl d = true ->
  let svc := predictionsService ctl in
  Model.findFails (faults svc) = false ->
  let fresh := List.filter (Model.matches d (now svc - TTL)) st in
  (fresh <> [] ->
   getPredictionStats ctl (Some d) st
   = (inl {| statsData := calculatePredictionStats (map documentToDto fresh);
             statsReplyMeta := {| statsDate := d; statsCached := true |} |}, st)
   /\ PredictionStats.totalMatches
        (calculatePredictionStats (map documentToDto fresh))
      = List.length fresh)
  /\ (fresh = [] ->
      forall R, FootballApiService.getPredictions (footballApiService svc) d = Ok R ->
      getPredictionStats ctl (Some d) st
      = (inl {| statsData := calculatePredictionStats (transformApiToDto R);
                statsReplyMeta := {| statsDate := d; statsCached := false |} |},
         snd (getAllPredictionsForDate svc d None st))
      /\ PredictionStats.totalMatches
           (calculatePredictionStats (transformApiToDto R))
         = List.length R).
Proof.
  intros V svc F fresh. subst svc fresh.
  unfold getPredictionStats, handle, await.
  rewrite (checkDate_accepts ctl d V). split.
  - intro N.
    rewrite (getAllPredictionsForDate_hit_eq (predictionsService ctl) d None st F N).
    split; [reflexivity|].
    cbn [calculatePredictionStats PredictionStats.totalMatches].
    apply length_map.
  - intros C R G.
    rewrite (getAllPredictionsForDate_miss (predictionsService ctl) d None st R F C G).
    split; [reflexivity|].
    cbn [calculatePredictionStats PredictionStats.totalMatches].
    unfold transformApiToDto. apply length_map.
Qed.

Lemma stats_cover_every_record_witness :
  let ctl := MoreFixtures.controller
               (Fixtures.service Fixtures.offlineApi Fixtures.noFaults Fixtures.noon) in
  exists r,
    getPredictionStats ctl (Some "2025-08-14") (Fixtures.collection Fixtures.noon)
    = (inl r, Fixtures.collection Fixtures.noon)
    /\ PredictionStats.totalMatches (statsData r) = 2%nat
    /\ PredictionStats.mediumConfidenceMatches (statsData r) = 2%nat.
Proof.
  intro ctl.
  destruct (stats_cover_every_record ctl "2025-08-14"
              (Fixtures.collection Fixtures.noon) eq_refl eq_refl) as [H _].
  destruct (H ltac:(discriminate)) as [E _].
  eexists. split; [exact E|]. split; reflexivity.
Defined.

(** *** Offline mode *)





(** *** Instances *)

Lemma query_leaves_other_dates_witness :
  let svc := Fixtures.service Fixtures.offlineApi Fixtures.insertFault Fixtures.noon in
  let st := Fixtures.collection (Fixtures.noon - 180 * Fixtures.minute) in
  recordsNotFor "2025-08-14" (snd (getPredictionsForDate svc "2025-08-14" None st))
  = [Fixtures.document "2025-08-15" "Leeds" 70
       (Fixtures.noon - 180 * Fixtures.minute - 10 * Fixtures.minute)]
  /\ recordsFor "2025-08-14" (snd (getPredictionsForDate svc "2025-08-14" None st))
     = [].
Proof.
  intros svc st. split; [|reflexivity].
  rewrite (proj1 (query_leaves_other_dates svc "2025-08-14" None st)).
  reflexivity.
Defined.

Lemma query_never_mixes_generations_witness :
  let svc := Fixtures.service Fixtures.offlineApi Fixtures.noFaults Fixtures.noon in
  let st := Fixtures.collection (Fixtures.noon - 180 * Fixtures.minute) in
  let st' := snd (getAllPredictionsForDate svc "2025-08-14" None st) in
  recordsFor "2025-08-14" st' = recordsFor "2025-08-14" st
  \/ recordsFor "2025-08-14" st' = []
  \/ exists R,
       FootballApiService.getPredictions (footballApiService svc) "2025-08-14"
       = Ok R
       /\ recordsFor "2025-08-14" st'
          = map (toDocument "2025-08-14" (writeTime svc)) R.
Proof.
  intros svc st st'.
  exact (proj2 (query_never_mixes_generations svc "2025-08-14" None st)).
Defined.

